(** * Row transforms and pipelines of the babyweight and taxifare notebooks

    Shallow embedding of the Python code of the babyweight preprocessing
    notebook (src/unnamed/part_000) and of
    [04_advanced_preprocessing/labs/a_dataflow.ipynb] (taxifare preprocessing):
    the [to_csv] row transforms, the Beam pipeline construction of
    [preprocess], the hash-based split predicates and the error handling of
    the notebook cells. *)

From Stdlib Require Import ZArith String List Bool Lia.
Import ListNotations.
Open Scope string_scope.
Open Scope Z_scope.

(** ** Python runtime fragment *)

Module Py.

(** Python floats are handled only through [str] and the comparison with an
    int literal; they are kept abstract behind this interface. *)
Class PyFloat (F : Type) := {
  float_str : F -> string;
  float_gt_int : F -> Z -> bool
}.

(** Scalar values a BigQuery reader puts into a row dictionary
    (INTEGER, FLOAT, BOOL, STRING, NULL). *)
Inductive pyval {F : Type} :=
| PInt (z : Z)
| PFloat (f : F)
| PBool (b : bool)
| PStr (s : string)
| PNone.
Arguments pyval : clear implicits.

(** The exceptions raised by the code below. *)
Inductive exn :=
| KeyError (k : string)
| IndexError
| TypeError.

(** Outcome of a Python computation: a value or a raised exception. *)
Inductive res (A : Type) :=
| Ok (a : A)
| Raise (e : exn).
Arguments Ok {A} a.
Arguments Raise {A} e.

Definition bind {A B} (m : res A) (f : A -> res B) : res B :=
  match m with
  | Ok a => f a
  | Raise e => Raise e
  end.

Notation "'let!' x := m 'in' k" := (bind m (fun x => k))
  (at level 200, x name, m at level 100, right associativity).

(** Decimal rendering of an int, as [str] does it. *)
Fixpoint digits_rev (fuel : nat) (n : N) : list Ascii.ascii :=
  match fuel with
  | O => []
  | S fuel' =>
      let d := N.modulo n 10 in
      let c := Ascii.ascii_of_N (48 + d) in
      if (n <? 10)%N then [c] else c :: digits_rev fuel' (N.div n 10)
  end.

Definition N_to_string (n : N) : string :=
  string_of_list_ascii (rev (digits_rev (S (N.size_nat n)) n)).

Definition Z_to_string (z : Z) : string :=
  match z with
  | Zneg p => "-" ++ N_to_string (Npos p)
  | _ => N_to_string (Z.to_N z)
  end.

Section Values.
Context {F : Type} `{PyFloat F}.

(** [str(v)] *)
Definition py_str (v : pyval F) : string :=
  match v with
  | PInt z => Z_to_string z
  | PFloat f => float_str f
  | PBool true => "True"
  | PBool false => "False"
  | PStr s => s
  | PNone => "None"
  end.

(** [v > n] for an int literal [n]; str and None do not compare with int. *)
Definition py_gt_int (v : pyval F) (n : Z) : res bool :=
  match v with
  | PInt z => Ok (n <? z)
  | PBool b => Ok (n <? Z.b2z b)
  | PFloat f => Ok (float_gt_int f n)
  | _ => Raise TypeError
  end.

(** [v - n] for an int literal [n]. Float minus int stays a float; the code
    below only uses the result as a list index, so it is returned as [None]
    here and refused by [py_index]. *)
Definition py_sub_int (v : pyval F) (n : Z) : res (option Z) :=
  match v with
  | PInt z => Ok (Some (z - n))
  | PBool b => Ok (Some (Z.b2z b - n))
  | PFloat _ => Ok None
  | _ => Raise TypeError
  end.

End Values.

(** [xs[i]] on a list, with Python's negative indices. *)
Definition py_index {A} (xs : list A) (i : option Z) : res A :=
  match i with
  | None => Raise TypeError
  | Some i =>
      let n := Z.of_nat (length xs) in
      let j := if i <? 0 then i + n else i in
      if (0 <=? j) && (j <? n) then
        match nth_error xs (Z.to_nat j) with
        | Some x => Ok x
        | None => Raise IndexError
        end
      else Raise IndexError
  end.

(** A dict, as an association list in insertion order with unique keys. *)
Definition dict (V : Type) := list (string * V).

Fixpoint lookup {V} (k : string) (d : dict V) : option V :=
  match d with
  | [] => None
  | (k', v) :: d' => if String.eqb k k' then Some v else lookup k d'
  end.

(** [d[k]] *)
Definition getitem {V} (d : dict V) (k : string) : res V :=
  match lookup k d with
  | Some v => Ok v
  | None => Raise (KeyError k)
  end.

(** [d[k] = v]: overwrite in place, or append a new key at the end. *)
Fixpoint setitem {V} (d : dict V) (k : string) (v : V) : dict V :=
  match d with
  | [] => [(k, v)]
  | (k', v') :: d' =>
      if String.eqb k k' then (k', v) :: d' else (k', v') :: setitem d' k v
  end.

(** [k in d] *)
Definition contains {V} (k : string) (d : dict V) : bool :=
  match lookup k d with Some _ => true | None => false end.

(** A computation that returns without raising. *)
Definition succeeds {A} (m : res A) : Prop :=
  exists a, m = Ok a.

(** Two dicts holding the same value under every key. *)
Definition same_entries {V} (d1 d2 : dict V) : Prop :=
  forall k, lookup k d1 = lookup k d2.

(** [','.join(xs)] *)
Definition join (sep : string) (xs : list string) : string :=
  String.concat sep xs.

End Py.

Import Py.

(** ** The babyweight [to_csv] (part_000, notebook cell of [preprocess]) *)

Module Babyweight.
Section ToCsv.
Context {F : Type} `{PyFloat F}.

Definition CSV_COLUMNS : list string :=
  ["weight_pounds"; "is_male"; "mother_age"; "plurality"; "gestation_weeks"].

Definition PLURALITY_NAMES : list string :=
  ["Single(1)"; "Twins(2)"; "Triplets(3)"; "Quadruplets(4)"; "Quintuplets(5)"].

(** [copy.deepcopy] of a row: the values are immutable scalars, so the copy
    holds the same entries (the object identity is modelled in
    [Heap]). *)
Definition deepcopy (d : dict (pyval F)) : dict (pyval F) := d.

(** [','.join([str(result[k]) if k in result else "None" for k in CSV_COLUMNS])] *)
Definition csv_line (result : dict (pyval F)) : string :=
  join "," (map (fun k => match lookup k result with
                          | Some v => py_str v
                          | None => "None"
                          end) CSV_COLUMNS).

(** The statements of the generator body before its loop: the list
    [[no_ultrasound, w_ultrasound]] the loop iterates over. *)
Definition ultrasound_variants (rowdict : dict (pyval F))
  : res (list (dict (pyval F))) :=
  let no_ultrasound := deepcopy rowdict in
  let w_ultrasound := deepcopy rowdict in
  let no_ultrasound := setitem no_ultrasound "is_male" (PStr "Unknown") in
  let! p := getitem rowdict "plurality" in
  let! gt := py_gt_int p 1 in
  let no_ultrasound :=
    if gt then setitem no_ultrasound "plurality" (PStr "Multiple(2+)")
    else setitem no_ultrasound "plurality" (PStr "Single(1)") in
  let! p' := getitem rowdict "plurality" in
  let! i := py_sub_int p' 1 in
  let! name := py_index PLURALITY_NAMES i in
  let w_ultrasound := setitem w_ultrasound "plurality" (PStr name) in
  Ok [no_ultrasound; w_ultrasound].

(** The generator run to completion, as [beam.FlatMap] does: every
    statement that can raise comes before the first [yield], so the
    outcome is either all the yielded lines or the exception.
    [str("{}".format(data))] is [data]. *)
Definition to_csv (rowdict : dict (pyval F)) : res (list string) :=
  let! results := ultrasound_variants rowdict in
  Ok (map (fun result => csv_line result) results).

(** Plurality values that [PLURALITY_NAMES[plurality - 1]] accepts. *)
Definition plurality_indexable (v : pyval F) : Prop :=
  match v with
  | PInt z => -4 <= z <= 5
  | PBool _ => True
  | _ => False
  end.

End ToCsv.
End Babyweight.

(** ** The taxifare [to_csv] (a_dataflow.ipynb) *)

Module Taxifare.
Section ToCsv.
Context {F : Type} `{PyFloat F}.

Definition CSV_COLUMNS : list string :=
  ["fare_amount"; "dayofweek"; "hourofday"; "pickuplon"; "pickuplat";
   "dropofflon"; "dropofflat"].

Definition days : list string :=
  ["null"; "Sun"; "Mon"; "Tue"; "Wed"; "Thu"; "Fri"; "Sat"].

(** [[str(rowdict[k]) for k in CSV_COLUMNS]], evaluated left to right. *)
Fixpoint str_columns (rowdict : dict (pyval F)) (ks : list string)
  : res (list string) :=
  match ks with
  | [] => Ok []
  | k :: ks' =>
      let! v := getitem rowdict k in
      let! rest := str_columns rowdict ks' in
      Ok (py_str v :: rest)
  end.

Definition to_csv (rowdict : dict (pyval F)) : res string :=
  let _ := days in
  let! cols := str_columns rowdict CSV_COLUMNS in
  let rowstring := join "," cols in
  Ok rowstring.

End ToCsv.
End Taxifare.

(** A concrete float representation for evaluating the definitions:
    a decimal [m / 10^s], printed with [s] fractional digits. *)
Module DecFloat.

Record dec := mkdec { mant : Z; scale : nat }.

Definition pad_left (n : nat) (s : string) : string :=
  let k := (n - String.length s)%nat in
  string_of_list_ascii (repeat (Ascii.ascii_of_nat 48) k) ++ s.

Definition dec_str (d : dec) : string :=
  let p := 10 ^ Z.of_nat (scale d) in
  let a := Z.abs (mant d) in
  let sign := if mant d <? 0 then "-" else "" in
  sign ++ Z_to_string (a / p) ++ "." ++
  (if (scale d =? 0)%nat then "0"
   else pad_left (scale d) (Z_to_string (a mod p))).

#[export] Instance dec_float : PyFloat dec := {
  float_str := dec_str;
  float_gt_int d n := n * 10 ^ Z.of_nat (scale d) <? mant d
}.

End DecFloat.
Import DecFloat.

(** ** The natality queries (part_000)

    A row of [publicdata.samples.natality]; every column is NULLable.
    [FARM_FINGERPRINT] is BigQuery's hash, taken as the argument [fp]. *)

Module Natality.
Section Queries.
Context {F : Type} `{PyFloat F}.

Record natality := mknatality {
  year : option Z;
  month : option Z;
  weight_pounds : option F;
  is_male : option bool;
  mother_age : option Z;
  plurality : option Z;
  gestation_weeks : option Z
}.

Variable fp : string -> Z.

(** [col > n] in a WHERE clause: a NULL column makes it NULL, which drops the row. *)
Definition sql_gt (c : option Z) (n : Z) : bool :=
  match c with Some x => n <? x | None => false end.

Definition sql_gt_float (c : option F) (n : Z) : bool :=
  match c with Some x => float_gt_int x n | None => false end.

(** The WHERE clause shared by the Beam query and [CTE_Raw_Data]. *)
Definition natality_where (r : natality) : bool :=
  sql_gt (year r) 2000 && sql_gt_float (weight_pounds r) 0 &&
  sql_gt (mother_age r) 0 && sql_gt (plurality r) 0 &&
  sql_gt (gestation_weeks r) 0 && sql_gt (month r) 0.

Definition int_col (c : option Z) : pyval F :=
  match c with Some z => PInt z | None => PNone end.

Definition float_col (c : option F) : pyval F :=
  match c with Some x => PFloat x | None => PNone end.

Definition bool_col (c : option bool) : pyval F :=
  match c with Some b => PBool b | None => PNone end.

(** [CAST(b AS STRING)] for a BOOL, as BigQuery documents it. *)
Definition cast_bool_string (c : option bool) : pyval F :=
  match c with
  | Some true => PStr "true"
  | Some false => PStr "false"
  | None => PNone
  end.

(** [CAST(z AS STRING)] for an INT64. *)
Definition cast_int_string (c : option Z) : option string :=
  match c with Some z => Some (Z_to_string z) | None => None end.

(** [ABS(FARM_FINGERPRINT(CONCAT(CAST(YEAR AS STRING), CAST(month AS STRING))))]
    (CONCAT with a NULL argument is NULL). *)
Definition hashmonth (r : natality) : pyval F :=
  match cast_int_string (year r), cast_int_string (month r) with
  | Some y, Some m => PInt (Z.abs (fp (y ++ m)))
  | _, _ => PNone
  end.

(** The query of [preprocess], one row as the Beam BigQuery reader hands it
    to [to_csv] (columns in SELECT order). *)
Definition beam_query (r : natality) : option (dict (pyval F)) :=
  if natality_where r then
    Some [("weight_pounds", float_col (weight_pounds r));
          ("is_male", bool_col (is_male r));
          ("mother_age", int_col (mother_age r));
          ("plurality", int_col (plurality r));
          ("gestation_weeks", int_col (gestation_weeks r));
          ("hashmonth", hashmonth r)]
  else None.

(** [CTE_Raw_Data] of the BigQuery preprocessing query. *)
Definition cte_raw_data (r : natality) : option (dict (pyval F)) :=
  if natality_where r then
    Some [("weight_pounds", float_col (weight_pounds r));
          ("is_male", cast_bool_string (is_male r));
          ("mother_age", int_col (mother_age r));
          ("plurality", int_col (plurality r));
          ("gestation_weeks", int_col (gestation_weeks r));
          ("hashmonth", hashmonth r)]
  else None.

Definition col (c : dict (pyval F)) (k : string) : pyval F :=
  match lookup k c with Some v => v | None => PNone end.

(** [plurality = n] on an INT64 column. *)
Definition sql_eq_int (v : pyval F) (n : Z) : bool :=
  match v with PInt z => z =? n | _ => false end.

Definition sql_gt_int (v : pyval F) (n : Z) : bool :=
  match v with PInt z => n <? z | _ => false end.

(** The CASE of the "Ultrasound" branch. *)
Definition ultrasound_case (v : pyval F) : pyval F :=
  if sql_eq_int v 1 then PStr "Single(1)"
  else if sql_eq_int v 2 then PStr "Twins(2)"
  else if sql_eq_int v 3 then PStr "Triplets(3)"
  else if sql_eq_int v 4 then PStr "Quadruplets(4)"
  else if sql_eq_int v 5 then PStr "Quintuplets(5)"
  else PStr "NULL".

(** The CASE of the "No ultrasound" branch (no ELSE: NULL). *)
Definition no_ultrasound_case (v : pyval F) : pyval F :=
  if sql_eq_int v 1 then PStr "Single(1)"
  else if sql_gt_int v 1 then PStr "Multiple(2+)"
  else PNone.

Definition ultrasound_branch (c : dict (pyval F)) : dict (pyval F) :=
  [("weight_pounds", col c "weight_pounds");
   ("is_male", col c "is_male");
   ("mother_age", col c "mother_age");
   ("plurality", ultrasound_case (col c "plurality"));
   ("gestation_weeks", col c "gestation_weeks");
   ("hashmonth", col c "hashmonth")].

Definition no_ultrasound_branch (c : dict (pyval F)) : dict (pyval F) :=
  [("weight_pounds", col c "weight_pounds");
   ("is_male", PStr "Unknown");
   ("mother_age", col c "mother_age");
   ("plurality", no_ultrasound_case (col c "plurality"));
   ("gestation_weeks", col c "gestation_weeks");
   ("hashmonth", col c "hashmonth")].

(** The rows the UNION ALL query produces for one natality row. *)
Definition bq_union (r : natality) : list (dict (pyval F)) :=
  match cte_raw_data r with
  | Some c => [ultrasound_branch c; no_ultrasound_branch c]
  | None => []
  end.

End Queries.
End Natality.

(** ** The Beam pipeline of the babyweight [preprocess] (part_000) *)

Module Preprocess.
Section Pipeline.
Context {F : Type} `{PyFloat F}.

(** The [query] literal of [preprocess]. *)
Definition base_query : string :=
"
SELECT
    weight_pounds,
    is_male,
    mother_age,
    plurality,
    gestation_weeks,
    ABS(FARM_FINGERPRINT(CONCAT(CAST(YEAR AS STRING), CAST(month AS STRING)))) AS hashmonth
FROM
    publicdata.samples.natality
WHERE
    year > 2000
    AND weight_pounds > 0
    AND mother_age > 0
    AND plurality > 0
    AND gestation_weeks > 0
    AND month > 0
".

Definition query (in_test_mode : bool) : string :=
  if in_test_mode then base_query ++ " LIMIT 100" else base_query.

(** [OUTPUT_DIR] *)
Definition output_dir (in_test_mode : bool) (BUCKET : string) : string :=
  if in_test_mode then "./preproc"
  else "gs://" ++ BUCKET ++ "/babyweight/preproc/".

Fixpoint last_char (s : string) : option Ascii.ascii :=
  match s with
  | EmptyString => None
  | String c EmptyString => Some c
  | String _ s' => last_char s'
  end.

Definition slash : Ascii.ascii := Ascii.ascii_of_nat 47.

Definition starts_with_slash (s : string) : bool :=
  match s with
  | String c _ => Ascii.eqb c slash
  | EmptyString => false
  end.

(** [os.path.join(a, b)] (posixpath) for two components. *)
Definition os_path_join (a b : string) : string :=
  if starts_with_slash b then b
  else match last_char a with
       | None => b
       | Some c => if Ascii.eqb c slash then a ++ b else a ++ "/" ++ b
       end.

(** [selquery] for a step of the loop. *)
Definition selquery (step query : string) : string :=
  if String.eqb step "train" then
    "SELECT * FROM (" ++ query ++ ") WHERE MOD(hashmonth, 100) < 80"
  else if String.eqb step "eval" then
    "SELECT * FROM (" ++ query ++ ") WHERE MOD(hashmonth, 100) >= 80 AND MOD(hashmonth, 100) < 90"
  else
    "SELECT * FROM (" ++ query ++ ") WHERE MOD(hashmonth, 100) >= 90".

(** The transforms the pipeline applies. *)
Inductive transform :=
| Read (query : string) (use_standard_sql : bool)  (* beam.io.Read(BigQuerySource(...)) *)
| FlatMap (fn : dict (pyval F) -> res (list string))  (* beam.FlatMap(fn) *)
| Write (path : string).  (* beam.io.Write(WriteToText(path)) *)

(** A PCollection: the pipeline root [p], or the output of a labelled
    application. *)
Inductive pcoll :=
| Root
| Out (label : string).

Record application := mkapp {
  app_label : string;
  app_transform : transform;
  app_input : pcoll
}.

(** [pc | label >> t]: records the application in the pipeline graph and
    returns its output. *)
Definition apply_transform (g : list application) (pc : pcoll)
    (label : string) (t : transform) : list application * pcoll :=
  ((g ++ [mkapp label t pc])%list, Out label).

(** The body of [for step in ["train", "eval"]]. *)
Definition build_step (in_test_mode : bool) (BUCKET : string)
    (g : list application) (step : string) : list application :=
  let sel := selquery step (query in_test_mode) in
  let '(g, pc) := apply_transform g Root (step ++ "_read") (Read sel true) in
  let '(g, pc) := apply_transform g pc (step ++ "_csv") (FlatMap Babyweight.to_csv) in
  let '(g, _) := apply_transform g pc (step ++ "_out")
                   (Write (os_path_join (output_dir in_test_mode BUCKET)
                                        (step ++ ".csv"))) in
  g.

(** The graph of [p] when [p.run()] is called. *)
Definition preprocess_pipeline (in_test_mode : bool) (BUCKET : string)
  : list application :=
  fold_left (build_step in_test_mode BUCKET) ["train"; "eval"] [].

End Pipeline.

(** [MOD(x, y)] of BigQuery: the result has the sign of [x]. *)
Definition sql_mod (x y : Z) : Z := Z.rem x y.

(** The WHERE clause [selquery] adds for a step, on the row's hashmonth. *)
Definition split_where (step : string) (hashmonth : Z) : bool :=
  let m := sql_mod hashmonth 100 in
  if String.eqb step "train" then m <? 80
  else if String.eqb step "eval" then (80 <=? m) && (m <? 90)
  else 90 <=? m.

End Preprocess.

(** ** The split of [create_query] (a_dataflow.ipynb)

    [h] is [ABS(FARM_FINGERPRINT(CAST(pickup_datetime AS STRING)))] and
    [every_n] the integer that [sample_size] spells; after
    [query.replace("EVERY_N", sample_size)] the clauses read as below. *)

Module TaxiQuery.

(** [MOD(h, EVERY_N) = 1] of the base query. *)
Definition base_where (every_n h : Z) : bool :=
  Preprocess.sql_mod h every_n =? 1.

(** The [subsample] clause of a phase; an unknown phase leaves [subsample]
    unbound ([None]: the function raises). *)
Definition subsample_where (phase : string) (every_n h : Z) : option bool :=
  let m := Preprocess.sql_mod h (every_n * 100) in
  if String.eqb phase "TRAIN" then
    Some ((every_n * 0 <=? m) && (m <? every_n * 70))
  else if String.eqb phase "VALID" then
    Some ((every_n * 70 <=? m) && (m <? every_n * 85))
  else if String.eqb phase "TEST" then
    Some ((every_n * 85 <=? m) && (m <? every_n * 100))
  else None.

Definition create_query_where (phase : string) (every_n h : Z) : option bool :=
  match subsample_where phase every_n h with
  | Some b => Some (base_where every_n h && b)
  | None => None
  end.

End TaxiQuery.

(** ** The row transforms over a heap of Python objects

    The row dictionary is an object of the heap, passed by reference;
    [copy.deepcopy] allocates a new dict (its values are immutable scalars,
    so copying the entries copies everything), and [d[k] = v] mutates the
    object it is applied to. *)

Module Heap.
Section Heap.
Context {F : Type} `{PyFloat F}.

Definition loc := nat.
Definition heap := list (dict (pyval F)).

(** State and exception monad over the heap: an exception keeps the heap as
    it was when it was raised. *)
Definition M (A : Type) := heap -> heap * res A.

Definition retM {A} (a : A) : M A := fun h => (h, Ok a).

Definition bindM {A B} (m : M A) (f : A -> M B) : M B :=
  fun h => match m h with
           | (h', Ok a) => f a h'
           | (h', Raise e) => (h', Raise e)
           end.

Notation "x <- m ;; k" := (bindM m (fun x => k))
  (at level 61, m at next level, right associativity).
Notation "m ;;; k" := (bindM m (fun _ => k))
  (at level 61, right associativity).

Definition lift {A} (r : res A) : M A := fun h => (h, r).

Fixpoint set_nth {A} (xs : list A) (n : nat) (x : A) : list A :=
  match xs, n with
  | [], _ => []
  | _ :: xs', O => x :: xs'
  | y :: xs', S n' => y :: set_nth xs' n' x
  end.

(** Every location the code dereferences is a live object; the [None]
    case does not arise. *)
Definition read (l : loc) : M (dict (pyval F)) :=
  fun h => match nth_error h l with
           | Some d => (h, Ok d)
           | None => (h, Raise TypeError)
           end.

Definition write (l : loc) (d : dict (pyval F)) : M unit :=
  fun h => (set_nth h l d, Ok tt).

Definition alloc (d : dict (pyval F)) : M loc :=
  fun h => ((h ++ [d])%list, Ok (length h)).

(** [copy.deepcopy(obj)] *)
Definition deepcopy (l : loc) : M loc :=
  d <- read l ;; alloc d.

(** [obj[k] = v] *)
Definition setitem_h (l : loc) (k : string) (v : pyval F) : M unit :=
  d <- read l ;; write l (setitem d k v).

(** [obj[k]] *)
Definition getitem_h (l : loc) (k : string) : M (pyval F) :=
  d <- read l ;; lift (getitem d k).

(** The babyweight [to_csv] on the object at [rowdict]. *)
Definition babyweight_to_csv (rowdict : loc) : M (list string) :=
  no_ultrasound <- deepcopy rowdict ;;
  w_ultrasound <- deepcopy rowdict ;;
  setitem_h no_ultrasound "is_male" (PStr "Unknown") ;;;
  p <- getitem_h rowdict "plurality" ;;
  gt <- lift (py_gt_int p 1) ;;
  (if gt then setitem_h no_ultrasound "plurality" (PStr "Multiple(2+)")
   else setitem_h no_ultrasound "plurality" (PStr "Single(1)")) ;;;
  p' <- getitem_h rowdict "plurality" ;;
  i <- lift (py_sub_int p' 1) ;;
  name <- lift (py_index Babyweight.PLURALITY_NAMES i) ;;
  setitem_h w_ultrasound "plurality" (PStr name) ;;;
  r1 <- read no_ultrasound ;;
  r2 <- read w_ultrasound ;;
  retM (map (fun result => Babyweight.csv_line result) [r1; r2]).

(** The taxifare [to_csv] on the object at [rowdict]: it only reads it. *)
Definition taxifare_to_csv (rowdict : loc) : M string :=
  d <- read rowdict ;;
  lift (Taxifare.to_csv d).

End Heap.
End Heap.

(** ** Error handling of the notebook cells

    Each call into a cloud client library, Beam or a CLI tool either
    returns or raises; [outcome] says which, for every call. Printed lines
    are kept as a log. *)

Module Cells.

Inductive ext_call :=
| GsutilRm (path : string)        (* subprocess.check_call("gsutil -m rm -r ...") *)
| Rmtree (path : string)          (* shutil.rmtree(path, ...) *)
| Makedirs (path : string)        (* os.makedirs(path) *)
| PipelineOptions                 (* beam.pipeline.PipelineOptions(...) *)
| PipelineCreate (runner : string)  (* beam.Pipeline(RUNNER, ...) *)
| ApplyTransforms (step : string)   (* p | read >> ... | csv >> ... | out >> ... *)
| PipelineRun                     (* p.run() *)
| WaitUntilFinish                 (* job.wait_until_finish() *)
| CreateDataset (dataset : string)  (* client.create_dataset(dataset) *)
| StartQuery (step : string)      (* client.query(...) *)
| QueryResult (step : string).    (* query_job.result() *)

Inductive ext_error :=
| CalledProcessError (returncode : Z)
| ApiError (reason : string)
| OSError.

Inductive cres (A : Type) :=
| COk (a : A)
| CErr (e : ext_error).
Arguments COk {A} a.
Arguments CErr {A} e.

Section Cells.
Variable outcome : ext_call -> option ext_error.

Definition C (A : Type) := list string -> list string * cres A.

Definition cret {A} (a : A) : C A := fun log => (log, COk a).

Definition cbind {A B} (m : C A) (f : A -> C B) : C B :=
  fun log => match m log with
             | (log', COk a) => f a log'
             | (log', CErr e) => (log', CErr e)
             end.

Notation "m ;; k" := (cbind m (fun _ => k)) (at level 61, right associativity).

Definition call (c : ext_call) : C unit :=
  fun log => match outcome c with
             | None => (log, COk tt)
             | Some e => (log, CErr e)
             end.

Definition print (s : string) : C unit := fun log => ((log ++ [s])%list, COk tt).

(** [try: body except: handler] (a bare [except] catches everything). *)
Definition try_except (body handler : C unit) : C unit :=
  fun log => match body log with
             | (log', COk _) => (log', COk tt)
             | (log', CErr _) => handler log'
             end.

(** [shutil.rmtree(path, ignore_errors=True)] *)
Definition rmtree_ignore_errors (path : string) : C unit :=
  try_except (call (Rmtree path)) (cret tt).

(** [preprocess(in_test_mode)] of the babyweight notebook. *)
Definition preprocess (in_test_mode : bool) (BUCKET job_name : string) : C unit :=
  let OUTPUT_DIR := Preprocess.output_dir in_test_mode BUCKET in
  (if in_test_mode then
     print "Launching local job ... hang on" ;;
     rmtree_ignore_errors OUTPUT_DIR ;;
     call (Makedirs OUTPUT_DIR)
   else
     print ("Launching Dataflow job " ++ job_name ++ " ... hang on") ;;
     try_except (call (GsutilRm OUTPUT_DIR)) (cret tt)) ;;
  call PipelineOptions ;;
  call (PipelineCreate (if in_test_mode then "DirectRunner" else "DataflowRunner")) ;;
  call (ApplyTransforms "train") ;;
  call (ApplyTransforms "eval") ;;
  call PipelineRun ;;
  (if in_test_mode then call WaitUntilFinish ;; print "Done!" else cret tt).





(** The error of the first failing call of a list. *)
Fixpoint first_failure (cs : list ext_call) : cres unit :=
  match cs with
  | [] => COk tt
  | c :: cs' =>
      match outcome c with
      | Some e => CErr e
      | None => first_failure cs'
      end
  end.

End Cells.
End Cells.

Definition sample_row (w : dec) (male : bool) (age plur gest hm : Z)
  : dict (pyval dec) :=
  [("weight_pounds", PFloat w); ("is_male", PBool male);
   ("mother_age", PInt age); ("plurality", PInt plur);
   ("gestation_weeks", PInt gest); ("hashmonth", PInt hm)].

(** Concrete inputs. *)

Definition r_plurality6 : dict (pyval dec) :=
  sample_row (mkdec 75 1) true 30 6 38 42.

Definition n_plurality6 : Natality.natality (F := dec) :=
  Natality.mknatality (Some 2005) (Some 3) (Some (mkdec 75 1)) (Some true)
    (Some 30) (Some 6) (Some 38).

Definition n_single_male : Natality.natality (F := dec) :=
  Natality.mknatality (Some 2005) (Some 3) (Some (mkdec 75 1)) (Some true)
    (Some 30) (Some 1) (Some 38).

Definition taxi_row : dict (pyval dec) :=
  [("fare_amount", PFloat (mkdec 125 1)); ("dayofweek", PInt 3);
   ("hourofday", PInt 17); ("pickuplon", PFloat (mkdec (-73985) 3));
   ("pickuplat", PFloat (mkdec 40758 3)); ("dropofflon", PFloat (mkdec (-73968) 3));
   ("dropofflat", PFloat (mkdec 40762 3))].

Definition r_reordered : dict (pyval dec) :=
  [("hashmonth", PInt 42); ("gestation_weeks", PInt 39); ("plurality", PInt 2);
   ("mother_age", PInt 32); ("is_male", PBool true);
   ("weight_pounds", PFloat (mkdec 75 1))].



(** ** String splitting and the pipeline options *)

Module PyStr.

(** [s.split(sep)] for a one-character separator. *)
Fixpoint split (sep : Ascii.ascii) (s : string) : list string :=
  match s with
  | EmptyString => [""]
  | String c s' =>
      if Ascii.eqb c sep then "" :: split sep s'
      else match split sep s' with
           | x :: xs => String c x :: xs
           | [] => [String c EmptyString]
           end
  end.

(** [sep not in s] *)
Fixpoint no_char (sep : Ascii.ascii) (s : string) : bool :=
  match s with
  | EmptyString => true
  | String c s' => negb (Ascii.eqb c sep) && no_char sep s'
  end.

Definition comma : Ascii.ascii := Ascii.ascii_of_nat 44.

End PyStr.

Module Options.
Section Options.
Context {F : Type} `{PyFloat F}.

(** [os.path.join(a, *bs)] *)
Definition os_path_join_all (a : string) (bs : list string) : string :=
  fold_left Preprocess.os_path_join bs a.

(** The [options] dict of the babyweight [preprocess]. *)
Definition babyweight_options (in_test_mode : bool) (BUCKET job_name PROJECT : string)
  : dict (pyval F) :=
  let OUTPUT_DIR := Preprocess.output_dir in_test_mode BUCKET in
  [("staging_location", PStr (os_path_join_all OUTPUT_DIR ["tmp"; "staging"]));
   ("temp_location", PStr (os_path_join_all OUTPUT_DIR ["tmp"]));
   ("job_name", PStr job_name);
   ("project", PStr PROJECT);
   ("teardown_policy", PStr "TEARDOWN_ALWAYS");
   ("no_save_main_session", PBool true)].

End Options.
End Options.

(** * Proofs *)

Example babyweight_twins :
  Babyweight.to_csv (sample_row (mkdec 75 1) true 32 2 39 1403073183891835564)
  = Ok ["7.5,Unknown,32,Multiple(2+),39"; "7.5,True,32,Twins(2),39"].
Proof. reflexivity. Qed.

(** ** Facts about the runtime fragment *)

Lemma succeeds_Ok {A} (a : A) : succeeds (Ok a).
Proof. now exists a. Qed.

Lemma not_succeeds_Raise {A} (e : exn) : ~ succeeds (@Raise A e).
Proof. intros [a Ha]; discriminate. Qed.

Lemma py_index_Some {A} (xs : list A) (i : Z) :
  succeeds (py_index xs (Some i)) <->
  - Z.of_nat (length xs) <= i < Z.of_nat (length xs).
Proof.
  unfold py_index; split.
  - intros [a Ha].
    destruct (i <? 0) eqn:Hneg;
      destruct (0 <=? _) eqn:H1; destruct (_ <? Z.of_nat (length xs)) eqn:H2;
      simpl in Ha; try discriminate;
      apply Z.ltb_lt in H2; apply Z.leb_le in H1;
      try (apply Z.ltb_lt in Hneg); try (apply Z.ltb_ge in Hneg); lia.
  - intros Hr.
    set (j := if i <? 0 then i + Z.of_nat (length xs) else i).
    assert (Hj : 0 <= j < Z.of_nat (length xs)).
    { subst j; destruct (i <? 0) eqn:Hneg;
        [apply Z.ltb_lt in Hneg | apply Z.ltb_ge in Hneg]; lia. }
    replace ((0 <=? j) && (j <? Z.of_nat (length xs)))%bool with true
      by (symmetry; apply andb_true_iff; split; [apply Z.leb_le | apply Z.ltb_lt]; lia).
    destruct (nth_error xs (Z.to_nat j)) as [a|] eqn:Hn.
    + now exists a.
    + apply nth_error_None in Hn; lia.
Qed.

Lemma bind_Ok {A B} (a : A) (f : A -> res B) : bind (Ok a) f = f a.
Proof. reflexivity. Qed.

Lemma bind_succeeds {A B} (m : res A) (f : A -> res B) :
  succeeds (bind m f) <-> exists a, m = Ok a /\ succeeds (f a).
Proof.
  destruct m as [a|e]; simpl; split.
  - intros Hs; exists a; auto.
  - intros (a' & Ha' & Hs); injection Ha' as <-; exact Hs.
  - intros Hs; now apply not_succeeds_Raise in Hs.
  - intros (a' & Ha' & _); discriminate.
Qed.

Lemma bind_Ok_succeeds {A B} (m : res A) (f : A -> B) :
  succeeds (bind m (fun a => Ok (f a))) <-> succeeds m.
Proof.
  destruct m as [a|e]; simpl; split; intros Hs; try apply succeeds_Ok;
    now apply not_succeeds_Raise in Hs.
Qed.

Lemma lookup_setitem {V} (d : dict V) (k k' : string) (v : V) :
  lookup k (setitem d k' v) = if String.eqb k k' then Some v else lookup k d.
Proof.
  induction d as [|[k0 v0] d IH]; simpl.
  - reflexivity.
  - destruct (String.eqb k' k0) eqn:E1; simpl.
    + apply String.eqb_eq in E1; subst k0.
      destruct (String.eqb k k'); reflexivity.
    + rewrite IH.
      destruct (String.eqb k k0) eqn:E2; [|reflexivity].
      apply String.eqb_eq in E2; subst k0.
      destruct (String.eqb k k') eqn:E3; [|reflexivity].
      apply String.eqb_eq in E3; subst k'.
      now rewrite String.eqb_refl in E1.
Qed.

Lemma getitem_lookup {V} (d : dict V) (k : string) :
  getitem d k = match lookup k d with Some v => Ok v | None => Raise (KeyError k) end.
Proof. reflexivity. Qed.

Module Totality.
Section Totality.
Context {F : Type} `{PyFloat F}.

Lemma babyweight_to_csv_succeeds (rowdict : dict (pyval F)) :
  succeeds (Babyweight.to_csv rowdict) <->
  exists v, lookup "plurality" rowdict = Some v /\ Babyweight.plurality_indexable v.
Proof.
  unfold Babyweight.to_csv; rewrite bind_Ok_succeeds.
  unfold Babyweight.ultrasound_variants; rewrite !getitem_lookup.
  destruct (lookup "plurality" rowdict) as [v|] eqn:Hp.
  - rewrite bind_succeeds; split.
    + intros (v' & Hv' & Hs); injection Hv' as <-; exists v; split; [reflexivity|].
      destruct v; unfold py_gt_int, py_sub_int in Hs; cbn [bind] in Hs |- *;
        try (now apply not_succeeds_Raise in Hs); [| exact I].
      apply bind_succeeds in Hs as (name & Hn & _).
      assert (Hs : succeeds (py_index Babyweight.PLURALITY_NAMES (Some (z - 1))))
        by (rewrite Hn; apply succeeds_Ok).
      apply py_index_Some in Hs; simpl in Hs |- *; lia.
    + intros (v' & Hv' & Hi); injection Hv' as <-.
      exists v; split; [reflexivity|].
      destruct v; unfold py_gt_int, py_sub_int; cbn [bind]; simpl in Hi;
        try contradiction.
      * assert (Hs : succeeds (py_index Babyweight.PLURALITY_NAMES (Some (z - 1))))
          by (apply py_index_Some; simpl; lia).
        destruct Hs as [name Hn]; rewrite Hn; apply succeeds_Ok.
      * destruct b; simpl; apply succeeds_Ok.
  - simpl; split.
    + intros Hs; now apply not_succeeds_Raise in Hs.
    + intros (v & Hv & _); discriminate.
Qed.

Lemma str_columns_succeeds (rowdict : dict (pyval F)) (ks : list string) :
  succeeds (Taxifare.str_columns rowdict ks) <->
  Forall (fun k => contains k rowdict = true) ks.
Proof.
  induction ks as [|k ks IH]; simpl.
  - split; [constructor | intros _; apply succeeds_Ok].
  - rewrite getitem_lookup; unfold contains.
    destruct (lookup k rowdict) as [v|] eqn:Hk; simpl.
    + split.
      * intros Hs; apply bind_succeeds in Hs as (rest & Hr & _).
        constructor; [unfold contains; now rewrite Hk|].
        apply IH; rewrite Hr; apply succeeds_Ok.
      * intros Hall; inversion Hall as [|? ? _ Hrest]; subst.
        apply IH in Hrest as [rest Hr]; rewrite Hr; simpl; apply succeeds_Ok.
    + split.
      * intros Hs; now apply not_succeeds_Raise in Hs.
      * intros Hall; inversion Hall as [|? ? Hk' _]; subst.
        unfold contains in Hk'; rewrite Hk in Hk'; discriminate.
Qed.

Lemma taxifare_to_csv_succeeds (rowdict : dict (pyval F)) :
  succeeds (Taxifare.to_csv rowdict) <->
  Forall (fun k => contains k rowdict = true) Taxifare.CSV_COLUMNS.
Proof.
  unfold Taxifare.to_csv; rewrite <- str_columns_succeeds, bind_succeeds.
  split.
  - intros (cols & Hc & _); rewrite Hc; apply succeeds_Ok.
  - intros [cols Hc]; exists cols; split; [exact Hc | apply succeeds_Ok].
Qed.

End Totality.
End Totality.

(** ** The two records of the babyweight [to_csv] *)

Module BabyweightFacts.
Section Facts.
Context {F : Type} `{PyFloat F}.

Lemma ultrasound_variants_int (rowdict : dict (pyval F)) (p : Z) :
  lookup "plurality" rowdict = Some (PInt p) ->
  Babyweight.ultrasound_variants rowdict =
  bind (py_index Babyweight.PLURALITY_NAMES (Some (p - 1))) (fun name =>
    Ok [setitem (setitem rowdict "is_male" (PStr "Unknown")) "plurality"
          (PStr (if 1 <? p then "Multiple(2+)" else "Single(1)"));
        setitem rowdict "plurality" (PStr name)]).
Proof.
  intros Hp; unfold Babyweight.ultrasound_variants, Babyweight.deepcopy.
  rewrite getitem_lookup, Hp; cbn [bind py_gt_int py_sub_int].
  destruct (1 <? p); reflexivity.
Qed.

Lemma plurality_name_in_range (p : Z) :
  1 <= p <= 5 ->
  py_index Babyweight.PLURALITY_NAMES (Some (p - 1)) =
  Ok (nth (Z.to_nat (p - 1)) Babyweight.PLURALITY_NAMES "").
Proof.
  intros Hp.
  assert (p = 1 \/ p = 2 \/ p = 3 \/ p = 4 \/ p = 5) as Hc by lia.
  destruct Hc as [-> | [-> | [-> | [-> | ->]]]]; reflexivity.
Qed.

Lemma plurality_name_above (p : Z) :
  5 < p -> py_index Babyweight.PLURALITY_NAMES (Some (p - 1)) = Raise IndexError.
Proof.
  intros Hp; unfold py_index; simpl length.
  replace (p - 1 <? 0) with false by (symmetry; apply Z.ltb_ge; lia).
  replace (p - 1 <? Z.of_nat 5) with false by (symmetry; apply Z.ltb_ge; simpl; lia).
  now rewrite andb_false_r.
Qed.

Lemma beam_query_plurality (fp : string -> Z) (r : Natality.natality)
    (rowdict : dict (pyval F)) :
  Natality.beam_query fp r = Some rowdict ->
  exists p, Natality.plurality r = Some p /\ 0 < p /\
            lookup "plurality" rowdict = Some (PInt p).
Proof.
  unfold Natality.beam_query, Natality.natality_where.
  destruct (Natality.sql_gt (Natality.plurality r) 0) eqn:Hp;
    [| rewrite !andb_false_r; simpl; now rewrite ?andb_false_r].
  unfold Natality.sql_gt in Hp.
  destruct (Natality.plurality r) as [p|]; [|discriminate].
  apply Z.ltb_lt in Hp.
  destruct (_ && _ && _ && _ && _ && _); intros Hq; [|discriminate].
  injection Hq as <-; exists p; repeat split; auto.
Qed.

Lemma csv_line_lookups (result : dict (pyval F)) :
  Babyweight.csv_line result =
  join "," (map (fun k => match lookup k result with
                          | Some v => py_str v | None => "None" end)
                Babyweight.CSV_COLUMNS).
Proof. reflexivity. Qed.

End Facts.
End BabyweightFacts.

Module RowFacts.

Lemma py_index_raise {A} (xs : list A) (i : Z) (e : exn) :
  py_index xs (Some i) = Raise e -> e = IndexError.
Proof.
  unfold py_index; destruct (_ && _); [destruct (nth_error _ _)|];
    intros He; congruence.
Qed.

Lemma py_index_in {A} (xs : list A) (i : option Z) (a : A) :
  py_index xs i = Ok a -> In a xs.
Proof.
  unfold py_index; destruct i as [i|]; [|discriminate].
  destruct (_ && _); [|discriminate].
  destruct (nth_error xs _) eqn:Hn; intros Ha; [|discriminate].
  injection Ha as <-; eapply nth_error_In; exact Hn.
Qed.

Lemma lookup_In {V} (k : string) (d : dict V) (v : V) :
  lookup k d = Some v -> In (k, v) d.
Proof.
  induction d as [|[k' v'] d IH]; simpl; [discriminate|].
  destruct (String.eqb k k') eqn:E.
  - apply String.eqb_eq in E; subst k'; intros Hv; injection Hv as <-; now left.
  - intros Hv; right; now apply IH.
Qed.

Lemma keys_setitem_present {V} (d : dict V) (k : string) (v : V) :
  contains k d = true -> map fst (setitem d k v) = map fst d.
Proof.
  unfold contains; induction d as [|[k' v'] d IH]; simpl; [discriminate|].

  destruct (String.eqb k k'); simpl; [reflexivity|].
  intros Hk; now rewrite IH.
Qed.

Lemma keys_setitem_absent {V} (d : dict V) (k : string) (v : V) :
  contains k d = false -> map fst (setitem d k v) = (map fst d ++ [k])%list.
Proof.
  unfold contains; induction d as [|[k' v'] d IH]; simpl; [reflexivity|].

  destruct (String.eqb k k'); simpl; [discriminate|].
  intros Hk; now rewrite IH.
Qed.

Lemma contains_setitem {V} (d : dict V) (k k' : string) (v : V) :
  contains k (setitem d k' v) = String.eqb k k' || contains k d.
Proof.
  unfold contains; rewrite lookup_setitem.
  destruct (String.eqb k k'); reflexivity.
Qed.

(** The two records of a successful [ultrasound_variants]. *)
Lemma ultrasound_variants_shape {F : Type} `{PyFloat F}
    (rowdict : dict (pyval F)) (results : list (dict (pyval F))) :
  Babyweight.ultrasound_variants rowdict = Ok results ->
  contains "plurality" rowdict = true /\
  exists s1 s2,
    In s1 ["Multiple(2+)"; "Single(1)"] /\ In s2 Babyweight.PLURALITY_NAMES /\
    results = [setitem (setitem rowdict "is_male" (PStr "Unknown")) "plurality" (PStr s1);
               setitem rowdict "plurality" (PStr s2)].
Proof.
  unfold Babyweight.ultrasound_variants, Babyweight.deepcopy, contains.
  rewrite getitem_lookup.
  destruct (lookup "plurality" rowdict) as [v|]; cbn [bind]; [|discriminate].
  intros Hr; split; [reflexivity|].
  destruct (py_gt_int v 1) as [gt|]; cbn [bind] in Hr; [|discriminate].
  destruct (py_sub_int v 1) as [i|]; cbn [bind] in Hr; [|discriminate].
  destruct (py_index Babyweight.PLURALITY_NAMES i) as [name|] eqn:Hn;
    cbn [bind] in Hr; [|discriminate].
  injection Hr as <-.
  exists (if gt then "Multiple(2+)" else "Single(1)"), name.
  split; [destruct gt; simpl; auto|].
  split; [eapply py_index_in; exact Hn|].
  destruct gt; reflexivity.
Qed.

(** The exception of a failing babyweight [to_csv], decided by the
    plurality entry. *)
Lemma babyweight_to_csv_raise {F : Type} `{PyFloat F}
    (rowdict : dict (pyval F)) (e : exn) :
  Babyweight.to_csv rowdict = Raise e <->
  match lookup "plurality" rowdict with
  | None => e = KeyError "plurality"
  | Some (PInt z) => (z < -4 \/ 5 < z) /\ e = IndexError
  | Some (PBool _) => False
  | Some _ => e = TypeError
  end.
Proof.
  unfold Babyweight.to_csv, Babyweight.ultrasound_variants, Babyweight.deepcopy.
  rewrite getitem_lookup.
  destruct (lookup "plurality" rowdict) as [v|]; cbn [bind];
    [|split; [congruence | intros ->; reflexivity]].
  destruct v as [z|f|b|s|]; unfold py_gt_int, py_sub_int; cbn [bind];
    try (split; [congruence | intros ->; reflexivity]).
  2: { cbn [py_index bind]; split; [congruence | intros ->; reflexivity]. }
  - destruct (py_index Babyweight.PLURALITY_NAMES (Some (z - 1))) as [name|e'] eqn:Hn;
      cbn [bind].
    + assert (Hs : succeeds (py_index Babyweight.PLURALITY_NAMES (Some (z - 1))))
        by (rewrite Hn; apply succeeds_Ok).
      apply py_index_Some in Hs; simpl in Hs.
      split; [discriminate | intros [Hz _]; lia].
    + apply py_index_raise in Hn as He'; subst e'.
      assert (Hz : ~ (-5 <= z - 1 < 5)).
      { intros Hz; change (-5 <= z - 1 < 5) with
          (- Z.of_nat (length Babyweight.PLURALITY_NAMES) <= z - 1 <
             Z.of_nat (length Babyweight.PLURALITY_NAMES)) in Hz.
        apply py_index_Some in Hz; rewrite Hn in Hz;
          now apply not_succeeds_Raise in Hz. }
      split; [intros He; injection He as <-; split; [lia | reflexivity]|].
      intros [_ ->]; reflexivity.
  - destruct b; cbn; split; [discriminate | tauto | discriminate | tauto].
Qed.

(** The two lines of a successful babyweight [to_csv]: every column other
    than plurality is the input's value, or "None" when it is missing. *)
Lemma babyweight_to_csv_fields {F : Type} `{PyFloat F}
    (rowdict : dict (pyval F)) (lines : list string) :
  Babyweight.to_csv rowdict = Ok lines ->
  let field k := match lookup k rowdict with Some v => py_str v | None => "None" end in
  exists s1 s2,
    In s1 ["Multiple(2+)"; "Single(1)"] /\ In s2 Babyweight.PLURALITY_NAMES /\
    lines = [join "," [field "weight_pounds"; "Unknown"; field "mother_age"; s1;
                       field "gestation_weeks"];
             join "," [field "weight_pounds"; field "is_male"; field "mother_age"; s2;
                       field "gestation_weeks"]].
Proof.
  unfold Babyweight.to_csv.
  destruct (Babyweight.ultrasound_variants rowdict) as [results|e] eqn:Hr; cbn [bind];
    [|discriminate].
  intros Hl; injection Hl as <-.
  destruct (ultrasound_variants_shape rowdict results Hr) as (_ & s1 & s2 & H1 & H2 & ->).
  exists s1, s2; split; [exact H1|]; split; [exact H2|].
  cbn [map]; unfold Babyweight.csv_line, Babyweight.CSV_COLUMNS; cbn [map].
  rewrite !lookup_setitem; reflexivity.
Qed.

(** [[str(rowdict[k]) for k in ks]] fails only with [KeyError] of a
    missing column. *)
Lemma str_columns_raise {F : Type} `{PyFloat F}
    (rowdict : dict (pyval F)) (ks : list string) (e : exn) :
  Taxifare.str_columns rowdict ks = Raise e ->
  exists k, e = KeyError k /\ In k ks /\ contains k rowdict = false.
Proof.
  induction ks as [|k ks IH]; simpl; [discriminate|].
  rewrite getitem_lookup.
  destruct (lookup k rowdict) eqn:Hk; cbn [bind].
  - destruct (Taxifare.str_columns rowdict ks) as [rest|e'] eqn:Hs; cbn [bind];
      [discriminate|].
    intros He; injection He as <-.
    destruct (IH eq_refl) as (k' & -> & Hin & Hc).
    exists k'; split; [reflexivity|]; split; [now right | exact Hc].
  - intros He; injection He as <-; exists k; split; [reflexivity|].
    split; [now left | unfold contains; rewrite Hk; reflexivity].
Qed.

Lemma taxifare_to_csv_raise {F : Type} `{PyFloat F}
    (rowdict : dict (pyval F)) (e : exn) :
  Taxifare.to_csv rowdict = Raise e ->
  exists k, e = KeyError k /\ In k Taxifare.CSV_COLUMNS /\ contains k rowdict = false.
Proof.
  unfold Taxifare.to_csv.
  destruct (Taxifare.str_columns rowdict Taxifare.CSV_COLUMNS) as [cols|e'] eqn:Hs;
    cbn [bind]; [discriminate|].
  intros He; injection He as <-; exact (str_columns_raise _ _ _ Hs).
Qed.

End RowFacts.

(** ** C1: totality of the row transforms *)

(** C1 (counterexample): the row transforms are not total. The babyweight
    [to_csv] raises [IndexError] on plurality 6 and [KeyError] on a row
    without a plurality; the taxifare [to_csv] raises [KeyError] on a row
    missing a column. *)
Lemma C1_to_csv_not_total :
  Babyweight.to_csv r_plurality6 = Raise IndexError /\
  Babyweight.to_csv (F := dec) [] = Raise (KeyError "plurality") /\
  Taxifare.to_csv (F := dec) [("fare_amount", PFloat (mkdec 25 1))]
    = Raise (KeyError "dayofweek").
Proof. repeat split; reflexivity. Qed.

(** C1 (amended): the babyweight [to_csv] runs to completion exactly when the
    row has a plurality that is an int in -4..5 (or a bool); otherwise it
    raises [KeyError] (no plurality), [IndexError] (an int outside -4..5)
    or [TypeError] (any other value), and on success every other missing
    column is printed as "None". The taxifare [to_csv] returns exactly when
    all seven columns are present, and otherwise raises [KeyError] for a
    missing one. *)
Theorem C1_to_csv_total_domain {F : Type} `{PyFloat F} :
  (forall rowdict : dict (pyval F),
     succeeds (Babyweight.to_csv rowdict) <->
     exists v, lookup "plurality" rowdict = Some v /\
               Babyweight.plurality_indexable v) /\
  (forall (rowdict : dict (pyval F)) (e : exn),
     Babyweight.to_csv rowdict = Raise e <->
     match lookup "plurality" rowdict with
     | None => e = KeyError "plurality"
     | Some (PInt z) => (z < -4 \/ 5 < z) /\ e = IndexError
     | Some (PBool _) => False
     | Some _ => e = TypeError
     end) /\
  (forall (rowdict : dict (pyval F)) (lines : list string),
     Babyweight.to_csv rowdict = Ok lines ->
     let field k := match lookup k rowdict with Some v => py_str v | None => "None" end in
     exists s1 s2,
       In s1 ["Multiple(2+)"; "Single(1)"] /\ In s2 Babyweight.PLURALITY_NAMES /\
       lines = [join "," [field "weight_pounds"; "Unknown"; field "mother_age"; s1;
                          field "gestation_weeks"];
                join "," [field "weight_pounds"; field "is_male"; field "mother_age"; s2;
                          field "gestation_weeks"]]) /\
  (forall rowdict : dict (pyval F),
     succeeds (Taxifare.to_csv rowdict) <->
     Forall (fun k => contains k rowdict = true) Taxifare.CSV_COLUMNS) /\
  (forall (rowdict : dict (pyval F)) (e : exn),
     Taxifare.to_csv rowdict = Raise e ->
     exists k, e = KeyError k /\ In k Taxifare.CSV_COLUMNS /\ contains k rowdict = false).
Proof.
  split; [|split; [|split; [|split]]].
  - intros rowdict; apply Totality.babyweight_to_csv_succeeds.
  - intros rowdict e; apply RowFacts.babyweight_to_csv_raise.
  - intros rowdict lines; apply RowFacts.babyweight_to_csv_fields.
  - intros rowdict; apply Totality.taxifare_to_csv_succeeds.
  - intros rowdict e; apply RowFacts.taxifare_to_csv_raise.
Qed.

(** ** C3: the plurality indexing under the query filters *)

(** C3 (counterexample): a natality row with plurality 6 passes every filter
    of the query, and the indexing of [to_csv] raises [IndexError] on it. *)
Lemma C3_filtered_row_raises :
  exists rowdict,
    Natality.beam_query (fun _ => 1403073183891835564) n_plurality6 = Some rowdict /\
    Babyweight.to_csv rowdict = Raise IndexError.
Proof. eexists; split; reflexivity. Qed.

(** C3 (amended): for every row the query returns, the babyweight [to_csv]
    raises nothing when the plurality is at most 5 (the natality range),
    and raises [IndexError] when it is above 5. *)
Theorem C3_filtered_row_domain {F : Type} `{PyFloat F}
    (fp : string -> Z) (r : Natality.natality) (rowdict : dict (pyval F)) (p : Z) :
  Natality.beam_query fp r = Some rowdict ->
  Natality.plurality r = Some p ->
  (p <= 5 -> succeeds (Babyweight.to_csv rowdict)) /\
  (5 < p -> Babyweight.to_csv rowdict = Raise IndexError).
Proof.
  intros Hq Hp.
  destruct (BabyweightFacts.beam_query_plurality fp r rowdict Hq)
    as (p' & Hp' & Hpos & Hl).
  rewrite Hp in Hp'; injection Hp' as <-.
  unfold Babyweight.to_csv; rewrite (BabyweightFacts.ultrasound_variants_int _ _ Hl).
  split; intros Hb.
  - rewrite BabyweightFacts.plurality_name_in_range by lia; apply succeeds_Ok.
  - now rewrite BabyweightFacts.plurality_name_above.
Qed.

Lemma C3_filtered_row_domain_witness :
  Natality.beam_query (fun _ => 42) n_plurality6 = Some r_plurality6 /\
  Natality.plurality n_plurality6 = Some 6 /\
  ((6 <= 5 -> succeeds (Babyweight.to_csv r_plurality6)) /\
   (5 < 6 -> Babyweight.to_csv r_plurality6 = Raise IndexError)).
Proof.
  split; [reflexivity|]. split; [reflexivity|].
  exact (C3_filtered_row_domain (fun _ => 42) n_plurality6 r_plurality6 6
           eq_refl eq_refl).
Defined.

(** ** C4: the two lines of the babyweight [to_csv] *)

(** C4 (counterexample): a row with all the expected columns and plurality 6
    yields no line at all: [to_csv] raises [IndexError]. *)
Lemma C4_plurality6_no_lines :
  Babyweight.to_csv (sample_row (mkdec 75 1) false 30 6 38 7) = Raise IndexError.
Proof. reflexivity. Qed.

(** C4 (amended): for a row with the expected columns and plurality n in
    1..5, [to_csv] yields exactly two lines of five comma-joined fields:
    first the no-ultrasound line ("Unknown", and "Multiple(2+)" or
    "Single(1)"), then the with-ultrasound line (the n-th plurality name);
    every other field is [str] of the input value and hashmonth is dropped. *)
Theorem C4_two_lines {F : Type} `{PyFloat F} (rowdict : dict (pyval F))
    (w m a g : pyval F) (n : Z) :
  lookup "weight_pounds" rowdict = Some w ->
  lookup "is_male" rowdict = Some m ->
  lookup "mother_age" rowdict = Some a ->
  lookup "plurality" rowdict = Some (PInt n) ->
  lookup "gestation_weeks" rowdict = Some g ->
  1 <= n <= 5 ->
  Babyweight.to_csv rowdict =
  Ok [join "," [py_str w; "Unknown"; py_str a;
                if 1 <? n then "Multiple(2+)" else "Single(1)"; py_str g];
      join "," [py_str w; py_str m; py_str a;
                nth (Z.to_nat (n - 1)) Babyweight.PLURALITY_NAMES ""; py_str g]].
Proof.
  intros Hw Hm Ha Hp Hg Hn.
  unfold Babyweight.to_csv.
  rewrite (BabyweightFacts.ultrasound_variants_int _ _ Hp).
  rewrite (BabyweightFacts.plurality_name_in_range _ Hn).
  cbn [bind map]; rewrite !BabyweightFacts.csv_line_lookups.
  unfold Babyweight.CSV_COLUMNS; cbn [map]; rewrite !lookup_setitem.
  simpl String.eqb; cbv iota.
  now rewrite Hw, Hm, Ha, Hg.
Qed.

Lemma C4_two_lines_witness :
  Babyweight.to_csv (sample_row (mkdec 75 1) true 32 2 39 7) =
  Ok ["7.5,Unknown,32,Multiple(2+),39"; "7.5,True,32,Twins(2),39"].
Proof.
  rewrite (C4_two_lines (sample_row (mkdec 75 1) true 32 2 39 7)
             (PFloat (mkdec 75 1)) (PBool true) (PInt 32) (PInt 39) 2);
    try reflexivity; lia.
Defined.

(** ** C5: Beam and BigQuery preprocessing of a natality row *)

(** C5 (counterexample): on a single birth of a boy, the with-ultrasound
    record of [to_csv] has is_male the BOOL [True] (written "True"), while
    the ultrasound branch of the UNION ALL query carries
    [CAST(is_male AS STRING)], the STRING "true". *)
Lemma C5_is_male_differs :
  exists rowdict no_us w_us us no_bq,
    Natality.beam_query (fun _ => 42) n_single_male = Some rowdict /\
    Babyweight.ultrasound_variants rowdict = Ok [no_us; w_us] /\
    Natality.bq_union (fun _ => 42) n_single_male = [us; no_bq] /\
    lookup "is_male" w_us = Some (PBool true) /\
    lookup "is_male" us = Some (PStr "true") /\
    Babyweight.csv_line w_us = "7.5,True,30,Single(1),38".
Proof. do 5 eexists; repeat split; reflexivity. Qed.

(** C5 (amended): for every row passing the shared filters with plurality
    at most 5, the no-ultrasound record of [to_csv] is exactly the row of the
    no-ultrasound branch ("Unknown" is_male, "Single(1)"/"Multiple(2+)"), and
    the with-ultrasound record is the row of the ultrasound branch (the CASE
    names of plurality 1..5), except that its is_male is the input BOOL
    where BigQuery holds [CAST(is_male AS STRING)]. *)
Theorem C5_beam_bq_agree {F : Type} `{PyFloat F}
    (fp : string -> Z) (r : Natality.natality) (rowdict : dict (pyval F)) (p : Z) :
  Natality.beam_query fp r = Some rowdict ->
  Natality.plurality r = Some p ->
  p <= 5 ->
  exists c,
    Natality.cte_raw_data fp r = Some c /\
    Natality.bq_union fp r =
      [Natality.ultrasound_branch c; Natality.no_ultrasound_branch c] /\
    Babyweight.ultrasound_variants rowdict =
      Ok [Natality.no_ultrasound_branch c;
          setitem (Natality.ultrasound_branch c) "is_male"
                  (Natality.bool_col (Natality.is_male r))] /\
    lookup "is_male" (Natality.ultrasound_branch c) =
      Some (Natality.cast_bool_string (Natality.is_male r)).
Proof.
  intros Hq Hp Hle.
  destruct (BabyweightFacts.beam_query_plurality fp r rowdict Hq)
    as (p' & Hp' & Hpos & _).
  rewrite Hp in Hp'; injection Hp' as <-.
  unfold Natality.beam_query in Hq; unfold Natality.bq_union, Natality.cte_raw_data.
  destruct (Natality.natality_where r); [|discriminate].
  injection Hq as <-.
  eexists; split; [reflexivity|]; split; [reflexivity|]; split; [|reflexivity].
  rewrite Hp.
  assert (p = 1 \/ p = 2 \/ p = 3 \/ p = 4 \/ p = 5) as Hc by lia.
  destruct Hc as [-> | [-> | [-> | [-> | ->]]]]; reflexivity.
Qed.

Lemma C5_beam_bq_agree_witness :
  exists c,
    Natality.cte_raw_data (fun _ => 42) n_single_male = Some c /\
    Natality.bq_union (fun _ => 42) n_single_male =
      [Natality.ultrasound_branch c; Natality.no_ultrasound_branch c] /\
    Babyweight.ultrasound_variants
      (sample_row (mkdec 75 1) true 30 1 38 42) =
      Ok [Natality.no_ultrasound_branch c;
          setitem (Natality.ultrasound_branch c) "is_male"
                  (Natality.bool_col (Natality.is_male n_single_male))] /\
    lookup "is_male" (Natality.ultrasound_branch c) =
      Some (Natality.cast_bool_string (Natality.is_male n_single_male)).
Proof.
  apply (C5_beam_bq_agree (fun _ => 42) n_single_male
           (sample_row (mkdec 75 1) true 30 1 38 42) 1);
    [reflexivity | reflexivity | lia].
Defined.

(** ** C6: the shape of the Beam pipeline *)

Module PipelineFacts.

Lemma last_char_app (s1 s2 : string) (c : Ascii.ascii) :
  Preprocess.last_char s2 = Some c -> Preprocess.last_char (s1 ++ s2) = Some c.
Proof.
  intros H2; induction s1 as [|a s1 IH]; simpl; [exact H2|].
  destruct (s1 ++ s2) eqn:E; [discriminate | exact IH].
Qed.

Lemma output_dir_join (in_test_mode : bool) (BUCKET step : string) :
  Preprocess.starts_with_slash step = false ->
  Preprocess.os_path_join (Preprocess.output_dir in_test_mode BUCKET) step =
  (if in_test_mode then "./preproc/" else Preprocess.output_dir false BUCKET)
    ++ step.
Proof.
  intros Hs; unfold Preprocess.os_path_join; rewrite Hs.
  destruct in_test_mode; [reflexivity|].
  unfold Preprocess.output_dir.
  rewrite (last_char_app "gs://" (BUCKET ++ "/babyweight/preproc/")
             Preprocess.slash) by (apply last_char_app; reflexivity).
  now rewrite Ascii.eqb_refl.
Qed.

End PipelineFacts.

(** C6: for each step of ["train", "eval"] the pipeline of [preprocess]
    holds exactly three applications, chained in order: the BigQuery read of
    the step's [selquery], [FlatMap to_csv] on its output, and the write of
    that to <OUTPUT_DIR>/<step>.csv; the graph has nothing else. *)
Theorem C6_pipeline_three_stages {F : Type} `{PyFloat F}
    (in_test_mode : bool) (BUCKET : string) :
  Preprocess.preprocess_pipeline (F := F) in_test_mode BUCKET =
  flat_map (fun step =>
    [Preprocess.mkapp (step ++ "_read")
       (Preprocess.Read (Preprocess.selquery step (Preprocess.query in_test_mode)) true)
       Preprocess.Root;
     Preprocess.mkapp (step ++ "_csv") (Preprocess.FlatMap Babyweight.to_csv)
       (Preprocess.Out (step ++ "_read"));
     Preprocess.mkapp (step ++ "_out")
       (Preprocess.Write
          ((if in_test_mode then "./preproc/" else Preprocess.output_dir false BUCKET)
             ++ step ++ ".csv"))
       (Preprocess.Out (step ++ "_csv"))])
    ["train"; "eval"].
Proof.
  unfold Preprocess.preprocess_pipeline, Preprocess.build_step,
    Preprocess.apply_transform.
  cbn [fold_left List.app flat_map].
  rewrite !PipelineFacts.output_dir_join by reflexivity.
  reflexivity.
Qed.

(** ** C7: the dataset splits are disjoint *)

(** Closes [b = false] for a conjunction [b] of integer comparisons whose
    bounds contradict each other. *)
Ltac bounds_false :=
  apply Bool.not_true_iff_false; intros Hc;
  rewrite ?Bool.andb_true_iff, ?Z.ltb_lt, ?Z.leb_le in Hc; lia.

(** C7: no hashmonth satisfies both the train and the eval WHERE clause of
    [selquery]; a row reaches one of them exactly when MOD(hashmonth, 100)
    < 90, so rows with MOD >= 90 reach neither; and for every EVERY_N the
    TRAIN, VALID and TEST subsample clauses of [create_query] hold pairwise
    never together. *)
Theorem C7_splits_disjoint :
  (forall h : Z,
     Preprocess.split_where "train" h && Preprocess.split_where "eval" h = false) /\
  (forall h : Z,
     Preprocess.split_where "train" h || Preprocess.split_where "eval" h =
     (Preprocess.sql_mod h 100 <? 90)) /\
  (forall every_n h : Z,
     exists tr va te,
       TaxiQuery.subsample_where "TRAIN" every_n h = Some tr /\
       TaxiQuery.subsample_where "VALID" every_n h = Some va /\
       TaxiQuery.subsample_where "TEST" every_n h = Some te /\
       tr && va = false /\ tr && te = false /\ va && te = false).
Proof.
  split; [|split].
  - intros h; unfold Preprocess.split_where; simpl String.eqb; cbv iota zeta.
    bounds_false.
  - intros h; unfold Preprocess.split_where; simpl String.eqb; cbv iota zeta.
    apply Bool.eq_iff_eq_true.
    rewrite Bool.orb_true_iff, Bool.andb_true_iff, !Z.ltb_lt, Z.leb_le; lia.
  - intros n h; unfold TaxiQuery.subsample_where; simpl String.eqb; cbv iota zeta.
    do 3 eexists; split; [reflexivity|]; split; [reflexivity|];
      split; [reflexivity|].
    repeat split; bounds_false.
Qed.

(** ** C8: the taxifare line *)

Module TaxifareFacts.
Section Facts.
Context {F : Type} `{PyFloat F}.

Lemma str_columns_present (rowdict : dict (pyval F)) (ks : list string)
    (vs : list (pyval F)) :
  Forall2 (fun k v => lookup k rowdict = Some v) ks vs ->
  Taxifare.str_columns rowdict ks = Ok (map py_str vs).
Proof.
  induction 1 as [|k v ks vs Hk _ IH]; simpl; [reflexivity|].
  rewrite getitem_lookup, Hk; cbn [bind]; now rewrite IH.
Qed.

End Facts.
End TaxifareFacts.

(** C8: for a row holding the seven columns with values [vs] (in the order
    fare_amount, dayofweek, hourofday, pickuplon, pickuplat, dropofflon,
    dropofflat), the taxifare [to_csv] returns the one string joining
    [str] of each value with commas, in that order. *)
Theorem C8_taxifare_line {F : Type} `{PyFloat F} (rowdict : dict (pyval F))
    (vs : list (pyval F)) :
  Forall2 (fun k v => lookup k rowdict = Some v) Taxifare.CSV_COLUMNS vs ->
  Taxifare.to_csv rowdict = Ok (join "," (map py_str vs)).
Proof.
  intros Hvs; unfold Taxifare.to_csv.
  now rewrite (TaxifareFacts.str_columns_present _ _ _ Hvs).
Qed.

Lemma C8_taxifare_line_witness :
  Taxifare.to_csv taxi_row =
  Ok "12.5,3,17,-73.985,40.758,-73.968,40.762".
Proof.
  rewrite (C8_taxifare_line taxi_row
             [PFloat (mkdec 125 1); PInt 3; PInt 17; PFloat (mkdec (-73985) 3);
              PFloat (mkdec 40758 3); PFloat (mkdec (-73968) 3);
              PFloat (mkdec 40762 3)]).
  - reflexivity.
  - repeat constructor.
Defined.

(** ** C9: the row transforms leave their argument and the heap unchanged *)

Module HeapFacts.
Local Open Scope list_scope.
Local Open Scope nat_scope.
Section Facts.
Context {F : Type} `{PyFloat F}.

Lemma read_old (h ext : Heap.heap) (l : Heap.loc) (d : dict (pyval F)) :
  nth_error h l = Some d -> Heap.read l (h ++ ext) = (h ++ ext, Ok d).
Proof.
  intros Hl; unfold Heap.read.
  rewrite nth_error_app1 by (apply nth_error_Some; congruence).
  now rewrite Hl.
Qed.

Lemma read_new (h ext : Heap.heap) (i : nat) (d : dict (pyval F)) :
  nth_error ext i = Some d ->
  Heap.read (length h + i) (h ++ ext) = (h ++ ext, Ok d).
Proof.
  intros Hi; unfold Heap.read.
  rewrite nth_error_app2 by lia.
  now replace (length h + i - length h)%nat with i by lia; rewrite Hi.
Qed.

Lemma alloc_ext (h ext : Heap.heap) (d : dict (pyval F)) :
  Heap.alloc d (h ++ ext) = (h ++ (ext ++ [d]), Ok (length h + length ext)%nat).
Proof.
  unfold Heap.alloc; now rewrite length_app, app_assoc.
Qed.

Lemma set_nth_app_r {A} (xs ys : list A) (i : nat) (x : A) :
  Heap.set_nth (xs ++ ys) (length xs + i) x = xs ++ Heap.set_nth ys i x.
Proof.
  induction xs as [|y xs IH]; simpl; [reflexivity|].
  destruct (xs ++ ys) eqn:E.
  - apply app_eq_nil in E as [-> ->]; reflexivity.
  - now rewrite <- IH.
Qed.

Lemma write_new (h ext : Heap.heap) (i : nat) (d : dict (pyval F)) :
  Heap.write (length h + i) d (h ++ ext) = (h ++ Heap.set_nth ext i d, Ok tt).
Proof. unfold Heap.write; now rewrite set_nth_app_r. Qed.

End Facts.

Ltac heap_step Hl :=
  match goal with
  | |- context [Heap.read (length ?h + ?i) (?h ++ ?e)] =>
      rewrite (read_new h e i _ eq_refl)
  | |- context [Heap.read ?l (?h ++ ?e)] => rewrite (read_old h e l _ Hl)
  | |- context [Heap.alloc ?d (?h ++ ?e)] => rewrite (alloc_ext h e d)
  | |- context [Heap.write (length ?h + ?i) ?d (?h ++ ?e)] =>
      rewrite (write_new h e i d)
  end;
  cbn beta iota delta [List.app length Heap.set_nth Py.bind].

Ltac split_outcome :=
  match goal with
  | Hx : ?x = Ok _ |- context [?x] => rewrite Hx
  | Hx : ?x = Raise _ |- context [?x] => rewrite Hx
  | |- context [match ?x with Ok _ => _ | Raise _ => _ end] => destruct x eqn:?
  | |- context [if ?b then _ else _] => destruct b
  end;
  cbn beta iota delta [Py.bind].

Ltac heap_run Hl :=
  repeat first [ heap_step Hl | split_outcome ];
  eexists; reflexivity.

Section Run.
Context {F : Type} `{PyFloat F}.

Lemma babyweight_heap_run (h : Heap.heap) (l : Heap.loc) (d : dict (pyval F)) :
  nth_error h l = Some d ->
  exists ext, Heap.babyweight_to_csv l h = (h ++ ext, Babyweight.to_csv d).
Proof.
  intros Hl.
  replace (Heap.babyweight_to_csv l h) with (Heap.babyweight_to_csv l (h ++ []))
    by now rewrite app_nil_r.
  unfold Heap.babyweight_to_csv, Heap.deepcopy, Heap.setitem_h, Heap.getitem_h,
    Heap.bindM, Heap.retM, Heap.lift.
  unfold Babyweight.to_csv, Babyweight.ultrasound_variants, Babyweight.deepcopy.
  heap_run Hl.
Qed.

Lemma taxifare_heap_run (h : Heap.heap) (l : Heap.loc) (d : dict (pyval F)) :
  nth_error h l = Some d ->
  Heap.taxifare_to_csv l h = (h, Taxifare.to_csv d).
Proof.
  intros Hl; unfold Heap.taxifare_to_csv, Heap.bindM, Heap.read, Heap.lift.
  now rewrite Hl.
Qed.

End Run.

End HeapFacts.

(** C9: run on the row object at [l] of any heap, the babyweight [to_csv]
    only appends objects (its two deep copies) and leaves every existing
    object, the row among them, as it was, whether it returns or raises;
    its outcome is the one of the pure [to_csv] on the row. The taxifare
    [to_csv] leaves the heap exactly as it was. *)
Theorem C9_to_csv_frame {F : Type} `{PyFloat F}
    (h : Heap.heap) (l : Heap.loc) (d : dict (pyval F)) :
  nth_error h l = Some d ->
  (exists ext,
     Heap.babyweight_to_csv l h = ((h ++ ext)%list, Babyweight.to_csv d) /\
     nth_error (h ++ ext)%list l = Some d) /\
  Heap.taxifare_to_csv l h = (h, Taxifare.to_csv d).
Proof.
  intros Hl; split.
  - destruct (HeapFacts.babyweight_heap_run h l d Hl) as [ext Hrun].
    exists ext; split; [exact Hrun|].
    rewrite nth_error_app1 by (apply nth_error_Some; congruence); exact Hl.
  - now apply HeapFacts.taxifare_heap_run.
Qed.

Lemma C9_to_csv_frame_witness :
  nth_error [r_plurality6; sample_row (mkdec 75 1) true 32 2 39 42] 1%nat =
    Some (sample_row (mkdec 75 1) true 32 2 39 42) /\
  (exists ext,
     Heap.babyweight_to_csv 1%nat [r_plurality6; sample_row (mkdec 75 1) true 32 2 39 42] =
       (([r_plurality6; sample_row (mkdec 75 1) true 32 2 39 42] ++ ext)%list,
        Babyweight.to_csv (sample_row (mkdec 75 1) true 32 2 39 42)) /\
     nth_error ([r_plurality6; sample_row (mkdec 75 1) true 32 2 39 42] ++ ext)%list 1%nat =
       Some (sample_row (mkdec 75 1) true 32 2 39 42)) /\
  Heap.taxifare_to_csv 1%nat [r_plurality6; sample_row (mkdec 75 1) true 32 2 39 42] =
    ([r_plurality6; sample_row (mkdec 75 1) true 32 2 39 42],
     Taxifare.to_csv (sample_row (mkdec 75 1) true 32 2 39 42)).
Proof.
  split; [reflexivity|].
  exact (C9_to_csv_frame [r_plurality6; sample_row (mkdec 75 1) true 32 2 39 42] 1%nat
           (sample_row (mkdec 75 1) true 32 2 39 42) eq_refl).
Defined.

(** ** C10: the row transforms depend only on the row's entries *)

Module Determinism.
Section Ext.
Context {F : Type} `{PyFloat F}.

Lemma same_entries_setitem (d1 d2 : dict (pyval F)) (k : string) (v : pyval F) :
  same_entries d1 d2 -> same_entries (setitem d1 k v) (setitem d2 k v).
Proof.
  intros He k'; rewrite !lookup_setitem, He; reflexivity.
Qed.

Lemma csv_line_same (d1 d2 : dict (pyval F)) :
  same_entries d1 d2 -> Babyweight.csv_line d1 = Babyweight.csv_line d2.
Proof.
  intros He; unfold Babyweight.csv_line; f_equal.
  apply map_ext; intros k; now rewrite He.
Qed.

Lemma str_columns_same (d1 d2 : dict (pyval F)) (ks : list string) :
  same_entries d1 d2 -> Taxifare.str_columns d1 ks = Taxifare.str_columns d2 ks.
Proof.
  intros He; induction ks as [|k ks IH]; simpl; [reflexivity|].
  now rewrite !getitem_lookup, He, IH.
Qed.

End Ext.
End Determinism.

(** C10: the two row transforms are functions of the row's entries: two row
    dictionaries holding the same value under every key (in whatever
    insertion order) give the same outcome, the same lines or the same
    exception. Nothing else (clock, randomness, other state) is an input. *)
Theorem C10_to_csv_deterministic {F : Type} `{PyFloat F}
    (r1 r2 : dict (pyval F)) :
  (forall k, lookup k r1 = lookup k r2) ->
  Babyweight.to_csv r1 = Babyweight.to_csv r2 /\
  Taxifare.to_csv r1 = Taxifare.to_csv r2.
Proof.
  intros He; split.
  - unfold Babyweight.to_csv, Babyweight.ultrasound_variants, Babyweight.deepcopy.
    rewrite !getitem_lookup, (He "plurality").
    destruct (lookup "plurality" r2) as [v|]; cbn [bind]; [|reflexivity].
    destruct (py_gt_int v 1) as [gt|e]; cbn [bind]; [|reflexivity].
    destruct (py_sub_int v 1) as [i|e]; cbn [bind]; [|reflexivity].
    destruct (py_index Babyweight.PLURALITY_NAMES i) as [name|e]; cbn [bind map];
      [|reflexivity].
    f_equal; f_equal; [|f_equal]; apply Determinism.csv_line_same;
      repeat apply Determinism.same_entries_setitem; [destruct gt|];
      repeat apply Determinism.same_entries_setitem; exact He.
  - unfold Taxifare.to_csv.
    now rewrite (Determinism.str_columns_same r1 r2 _ He).
Qed.

Lemma C10_to_csv_deterministic_witness :
  Babyweight.to_csv (sample_row (mkdec 75 1) true 32 2 39 42) =
    Babyweight.to_csv r_reordered /\
  Taxifare.to_csv (sample_row (mkdec 75 1) true 32 2 39 42) =
    Taxifare.to_csv r_reordered.
Proof.
  apply C10_to_csv_deterministic.
  intros k; unfold r_reordered, sample_row; simpl.
  destruct (String.eqb k "weight_pounds") eqn:E1;
    [apply String.eqb_eq in E1; subst k; reflexivity|].
  destruct (String.eqb k "is_male") eqn:E2;
    [apply String.eqb_eq in E2; subst k; reflexivity|].
  destruct (String.eqb k "mother_age") eqn:E3;
    [apply String.eqb_eq in E3; subst k; reflexivity|].
  destruct (String.eqb k "plurality") eqn:E4;
    [apply String.eqb_eq in E4; subst k; reflexivity|].
  destruct (String.eqb k "gestation_weeks") eqn:E5;
    [apply String.eqb_eq in E5; subst k; reflexivity|].
  destruct (String.eqb k "hashmonth"); reflexivity.
Defined.

(** ** C2: which failures propagate *)



(** * Further properties of the code *)

(** The exception the babyweight [to_csv] raises is decided by the
    [plurality] entry alone: a missing key raises [KeyError('plurality')],
    an int outside [-4, 5] raises [IndexError] (the list of five names is
    indexed with [plurality - 1]), a float, string or None raises
    [TypeError], and a bool never raises. *)
Theorem babyweight_to_csv_exceptions {F : Type} `{PyFloat F}
    (rowdict : dict (pyval F)) (e : exn) :
  Babyweight.to_csv rowdict = Raise e <->
  match lookup "plurality" rowdict with
  | None => e = KeyError "plurality"
  | Some (PInt z) => (z < -4 \/ 5 < z) /\ e = IndexError
  | Some (PBool _) => False
  | Some _ => e = TypeError
  end.
Proof. apply RowFacts.babyweight_to_csv_raise. Qed.

(** Plurality values from -4 to 0 do not raise: Python's negative
    indexing wraps [plurality - 1] around, so the with-ultrasound record
    names the [(plurality + 4)]-th entry (0 gives "Quintuplets(5)") while the
    no-ultrasound record says "Single(1)". *)
Theorem babyweight_plurality_wraps {F : Type} `{PyFloat F}
    (rowdict : dict (pyval F)) (p : Z) :
  lookup "plurality" rowdict = Some (PInt p) ->
  -4 <= p <= 0 ->
  Babyweight.ultrasound_variants rowdict =
  Ok [setitem (setitem rowdict "is_male" (PStr "Unknown")) "plurality"
        (PStr "Single(1)");
      setitem rowdict "plurality"
        (PStr (nth (Z.to_nat (p + 4)) Babyweight.PLURALITY_NAMES ""))].
Proof.
  intros Hp Hr; rewrite (BabyweightFacts.ultrasound_variants_int rowdict p Hp).
  assert (Hc : p = -4 \/ p = -3 \/ p = -2 \/ p = -1 \/ p = 0) by lia.
  destruct Hc as [->|[->|[->|[->| ->]]]]; reflexivity.
Qed.

Lemma babyweight_plurality_wraps_witness :
  lookup "plurality" (sample_row (mkdec 75 1) true 30 0 38 42) = Some (PInt 0) /\
  -4 <= 0 <= 0 /\
  Babyweight.ultrasound_variants (sample_row (mkdec 75 1) true 30 0 38 42) =
  Ok [setitem (setitem (sample_row (mkdec 75 1) true 30 0 38 42) "is_male"
                 (PStr "Unknown")) "plurality" (PStr "Single(1)");
      setitem (sample_row (mkdec 75 1) true 30 0 38 42) "plurality"
        (PStr (nth (Z.to_nat (0 + 4)) Babyweight.PLURALITY_NAMES ""))].
Proof.
  split; [reflexivity|]; split; [lia|].
  apply babyweight_plurality_wraps; [reflexivity | lia].
Defined.

(** A row that lacks some of the five CSV columns still gives its two lines
    as long as its plurality is 1 to 5: every missing column is written as
    "None" (but the no-ultrasound line always has "Unknown" for is_male);
    columns outside the five are dropped. *)
Theorem babyweight_missing_columns {F : Type} `{PyFloat F}
    (rowdict : dict (pyval F)) (n : Z) :
  lookup "plurality" rowdict = Some (PInt n) ->
  1 <= n <= 5 ->
  let field k := match lookup k rowdict with Some v => py_str v | None => "None" end in
  Babyweight.to_csv rowdict =
  Ok [join "," [field "weight_pounds"; "Unknown"; field "mother_age";
                if 1 <? n then "Multiple(2+)" else "Single(1)"; field "gestation_weeks"];
      join "," [field "weight_pounds"; field "is_male"; field "mother_age";
                nth (Z.to_nat (n - 1)) Babyweight.PLURALITY_NAMES "";
                field "gestation_weeks"]].
Proof.
  intros Hp Hr field; unfold Babyweight.to_csv.
  rewrite (BabyweightFacts.ultrasound_variants_int rowdict n Hp).
  rewrite (BabyweightFacts.plurality_name_in_range n Hr); cbn [bind map].
  unfold Babyweight.csv_line, Babyweight.CSV_COLUMNS; cbn [map].
  rewrite !lookup_setitem; subst field; simpl.
  destruct (1 <? n); reflexivity.
Qed.

Lemma babyweight_missing_columns_witness :
  lookup "plurality" [("plurality", @PInt dec 3)] = Some (PInt 3) /\ 1 <= 3 <= 5 /\
  Babyweight.to_csv [("plurality", @PInt dec 3)] =
  Ok ["None,Unknown,None,Multiple(2+),None"; "None,None,None,Triplets(3),None"].
Proof.
  split; [reflexivity|]; split; [lia|].
  exact (babyweight_missing_columns [("plurality", PInt 3)] 3 eq_refl
           ltac:(lia)).
Defined.

(** The taxifare [to_csv] reads the columns in CSV_COLUMNS order, so a row
    missing some of them raises [KeyError] for the first missing one. *)
Theorem taxifare_first_missing_key {F : Type} `{PyFloat F}
    (rowdict : dict (pyval F)) (pre post : list string) (k : string) :
  Taxifare.CSV_COLUMNS = (pre ++ k :: post)%list ->
  Forall (fun k' => contains k' rowdict = true) pre ->
  contains k rowdict = false ->
  Taxifare.to_csv rowdict = Raise (KeyError k).
Proof.
  intros Hc Hpre Hk; unfold Taxifare.to_csv; rewrite Hc.
  enough (Hs : Taxifare.str_columns rowdict (pre ++ k :: post)%list = Raise (KeyError k))
    by (rewrite Hs; reflexivity).
  clear Hc; induction Hpre as [|k' pre Hk' _ IH]; simpl; rewrite getitem_lookup.
  - unfold contains in Hk; destruct (lookup k rowdict); [discriminate | reflexivity].
  - unfold contains in Hk'; destruct (lookup k' rowdict); [|discriminate].
    cbn [bind]; rewrite IH; reflexivity.
Qed.

Lemma taxifare_first_missing_key_witness :
  Taxifare.CSV_COLUMNS =
    (["fare_amount"] ++ "dayofweek" ::
     ["hourofday"; "pickuplon"; "pickuplat"; "dropofflon"; "dropofflat"])%list /\
  Forall (fun k' => contains k' [("fare_amount", PFloat (mkdec 25 1))] = true)
    ["fare_amount"] /\
  contains "dayofweek" [("fare_amount", PFloat (mkdec 25 1))] = false /\
  Taxifare.to_csv [("fare_amount", PFloat (mkdec 25 1))] = Raise (KeyError "dayofweek").
Proof.
  assert (Hc : Taxifare.CSV_COLUMNS =
    (["fare_amount"] ++ "dayofweek" ::
     ["hourofday"; "pickuplon"; "pickuplat"; "dropofflon"; "dropofflat"])%list)
    by reflexivity.
  assert (Hf : Forall (fun k' => contains k' [("fare_amount", PFloat (mkdec 25 1))] = true)
    ["fare_amount"]) by (constructor; [reflexivity | constructor]).
  split; [exact Hc|]; split; [exact Hf|]; split; [reflexivity|].
  exact (taxifare_first_missing_key _ _ _ _ Hc Hf eq_refl).
Defined.

Module SplitFacts.

Lemma split_no_char (c : Ascii.ascii) (x : string) :
  PyStr.no_char c x = true -> PyStr.split c x = [x].
Proof.
  induction x as [|a x IH]; simpl; [reflexivity|].
  intros Hx; apply andb_true_iff in Hx as [Ha Hx].
  destruct (Ascii.eqb a c); [discriminate|].
  now rewrite IH.
Qed.

Lemma split_app_sep (c : Ascii.ascii) (x s : string) :
  PyStr.no_char c x = true ->
  PyStr.split c (x ++ String c s) = x :: PyStr.split c s.
Proof.
  induction x as [|a x IH]; simpl.
  - intros _; now rewrite Ascii.eqb_refl.
  - intros Hx; apply andb_true_iff in Hx as [Ha Hx].
    destruct (Ascii.eqb a c); [discriminate|].
    now rewrite IH.
Qed.

(** [sep.join(xs).split(sep)] gives back [xs] when no element contains
    [sep]. *)
Lemma split_join (c : Ascii.ascii) (xs : list string) :
  xs <> [] -> Forall (fun x => PyStr.no_char c x = true) xs ->
  PyStr.split c (String.concat (String c EmptyString) xs) = xs.
Proof.
  intros Hne Hall; induction Hall as [|x xs Hx Hxs IH]; [congruence|].
  destruct xs as [|y ys].
  - simpl; now apply split_no_char.
  - change (String.concat (String c EmptyString) (x :: y :: ys))
      with (x ++ String c (String.concat (String c EmptyString) (y :: ys))).
    rewrite split_app_sep by exact Hx.
    f_equal; apply IH; discriminate.
Qed.

Lemma join_comma (xs : list string) :
  join "," xs = String.concat (String PyStr.comma EmptyString) xs.
Proof. reflexivity. Qed.

Section Fields.
Context {F : Type} `{PyFloat F}.

Definition clean (d : dict (pyval F)) : bool :=
  forallb (fun kv => PyStr.no_char PyStr.comma (py_str (snd kv))) d.

Lemma clean_lookup (d : dict (pyval F)) (k : string) (v : pyval F) :
  clean d = true -> lookup k d = Some v -> PyStr.no_char PyStr.comma (py_str v) = true.
Proof.
  intros Hd Hk; apply RowFacts.lookup_In in Hk.
  unfold clean in Hd; rewrite forallb_forall in Hd.
  exact (Hd (k, v) Hk).
Qed.

Lemma clean_setitem (d : dict (pyval F)) (k : string) (v : pyval F) :
  clean d = true -> PyStr.no_char PyStr.comma (py_str v) = true ->
  clean (setitem d k v) = true.
Proof.
  unfold clean; induction d as [|[k' v'] d IH]; simpl; intros Hd Hv.
  - now rewrite Hv.
  - apply andb_true_iff in Hd as [Hv' Hd].
    destruct (String.eqb k k'); simpl.
    + now rewrite Hv, Hd.
    + rewrite Hv'; simpl; now apply IH.
Qed.

Lemma csv_line_fields (d : dict (pyval F)) :
  clean d = true ->
  exists fs, length fs = 5%nat /\ Babyweight.csv_line d = join "," fs /\
             Forall (fun x => PyStr.no_char PyStr.comma x = true) fs.
Proof.
  intros Hd; eexists; split; [|split; [reflexivity|]]; [reflexivity|].
  unfold Babyweight.CSV_COLUMNS; cbn [map].
  repeat constructor;
    match goal with
    | |- context [lookup ?k d] =>
        destruct (lookup k d) eqn:Hk; [eapply clean_lookup; eassumption | reflexivity]
    end.
Qed.

Lemma str_columns_fields (d : dict (pyval F)) (ks : list string) (cols : list string) :
  clean d = true -> Taxifare.str_columns d ks = Ok cols ->
  length cols = length ks /\ Forall (fun x => PyStr.no_char PyStr.comma x = true) cols.
Proof.
  intros Hd; revert cols; induction ks as [|k ks IH]; simpl; intros cols Hc.
  - injection Hc as <-; split; [reflexivity | constructor].
  - rewrite getitem_lookup in Hc.
    destruct (lookup k d) as [v|] eqn:Hk; cbn [bind] in Hc; [|discriminate].
    destruct (Taxifare.str_columns d ks) as [rest|] eqn:Hr; cbn [bind] in Hc;
      [|discriminate].
    injection Hc as <-; destruct (IH rest eq_refl) as [Hl Hf].
    split; [simpl; now rewrite Hl|].
    constructor; [eapply clean_lookup; eassumption | exact Hf].
Qed.

End Fields.
End SplitFacts.

Module SplitLines.
Section Lines.
Context {F : Type} `{PyFloat F}.

Lemma babyweight_lines_split (rowdict : dict (pyval F)) (lines : list string) :
  SplitFacts.clean rowdict = true ->
  Babyweight.to_csv rowdict = Ok lines ->
  Forall (fun l => exists fs, length fs = 5%nat /\ l = join "," fs /\
                              PyStr.split PyStr.comma l = fs) lines.
Proof.
  intros Hd Hl; unfold Babyweight.to_csv in Hl.
  destruct (Babyweight.ultrasound_variants rowdict) as [results|] eqn:Hv;
    cbn [bind] in Hl; [|discriminate].
  injection Hl as <-.
  destruct (RowFacts.ultrasound_variants_shape rowdict results Hv)
    as (_ & s1 & s2 & Hs1 & Hs2 & ->).
  assert (Hns1 : PyStr.no_char PyStr.comma s1 = true)
    by (simpl in Hs1; intuition (subst; reflexivity)).
  assert (Hns2 : PyStr.no_char PyStr.comma s2 = true)
    by (simpl in Hs2; intuition (subst; reflexivity)).
  assert (Hc : forall d, SplitFacts.clean d = true ->
             exists fs, length fs = 5%nat /\ Babyweight.csv_line d = join "," fs /\
                        PyStr.split PyStr.comma (Babyweight.csv_line d) = fs).
  { intros d Hcd; destruct (SplitFacts.csv_line_fields d Hcd) as (fs & Hlen & Hj & Hf).
    exists fs; split; [exact Hlen|]; split; [exact Hj|].
    rewrite Hj, SplitFacts.join_comma; apply SplitFacts.split_join; [|exact Hf].
    intros ->; discriminate. }
  cbn [map]; constructor; [|constructor; [|constructor]]; apply Hc;
    repeat apply SplitFacts.clean_setitem; assumption || reflexivity.
Qed.

End Lines.
End SplitLines.

(** Reading back what the two [to_csv] functions write: when no value of
    the row prints with a comma, every babyweight line splits on "," into
    exactly its five fields and the taxifare line into its seven. *)
Theorem to_csv_lines_split {F : Type} `{PyFloat F} (rowdict : dict (pyval F)) :
  forallb (fun kv => PyStr.no_char PyStr.comma (py_str (snd kv))) rowdict = true ->
  (forall lines, Babyweight.to_csv rowdict = Ok lines ->
     Forall (fun l => exists fs, length fs = 5%nat /\ l = join "," fs /\
                                 PyStr.split PyStr.comma l = fs) lines) /\
  (forall line, Taxifare.to_csv rowdict = Ok line ->
     exists fs, length fs = 7%nat /\ line = join "," fs /\
                PyStr.split PyStr.comma line = fs).
Proof.
  intros Hd; change (SplitFacts.clean rowdict = true) in Hd; split.
  - intros lines Hl; exact (SplitLines.babyweight_lines_split rowdict lines Hd Hl).
  - intros line Hl; unfold Taxifare.to_csv in Hl.
    destruct (Taxifare.str_columns rowdict Taxifare.CSV_COLUMNS) as [cols|] eqn:Hc;
      cbn [bind] in Hl; [|discriminate].
    injection Hl as <-.
    destruct (SplitFacts.str_columns_fields rowdict _ cols Hd Hc) as [Hlen Hf].
    exists cols; split; [exact Hlen|]; split; [reflexivity|].
    rewrite SplitFacts.join_comma; apply SplitFacts.split_join; [|exact Hf].
    intros ->; discriminate.
Qed.

Lemma to_csv_lines_split_witness :
  forallb (fun kv => PyStr.no_char PyStr.comma (py_str (snd kv))) taxi_row = true /\
  (forall line, Taxifare.to_csv taxi_row = Ok line ->
     exists fs, length fs = 7%nat /\ line = join "," fs /\
                PyStr.split PyStr.comma line = fs).
Proof.
  assert (Hd : forallb (fun kv => PyStr.no_char PyStr.comma (py_str (snd kv))) taxi_row
               = true) by reflexivity.
  split; [exact Hd | exact (proj2 (to_csv_lines_split taxi_row Hd))].
Defined.

(** Assigning a key the row already has keeps its place, so both records
    of the babyweight [to_csv] have the input's keys in the input's order;
    a row without [is_male] gets it appended, in the no-ultrasound record
    only. *)
Theorem ultrasound_variants_keys {F : Type} `{PyFloat F}
    (rowdict : dict (pyval F)) (no_us w_us : dict (pyval F)) :
  Babyweight.ultrasound_variants rowdict = Ok [no_us; w_us] ->
  map fst w_us = map fst rowdict /\
  map fst no_us = if contains "is_male" rowdict then map fst rowdict
                  else (map fst rowdict ++ ["is_male"])%list.
Proof.
  intros Hv.
  destruct (RowFacts.ultrasound_variants_shape rowdict _ Hv)
    as (Hp & s1 & s2 & _ & _ & Hr).
  injection Hr as -> ->.
  split; [now apply RowFacts.keys_setitem_present|].
  rewrite RowFacts.keys_setitem_present
    by (rewrite RowFacts.contains_setitem; rewrite Hp; apply orb_true_r).
  destruct (contains "is_male" rowdict) eqn:Hm.
  - now apply RowFacts.keys_setitem_present.
  - now apply RowFacts.keys_setitem_absent.
Qed.

Lemma ultrasound_variants_keys_witness :
  Babyweight.ultrasound_variants [("plurality", @PInt dec 2)] =
    Ok [[("plurality", PStr "Multiple(2+)"); ("is_male", PStr "Unknown")];
        [("plurality", PStr "Twins(2)")]] /\
  map fst [("plurality", @PStr dec "Twins(2)")] = map fst [("plurality", @PInt dec 2)] /\
  map fst [("plurality", @PStr dec "Multiple(2+)"); ("is_male", PStr "Unknown")] =
    (if contains "is_male" [("plurality", @PInt dec 2)]
     then map fst [("plurality", @PInt dec 2)]
     else (map fst [("plurality", @PInt dec 2)] ++ ["is_male"])%list).
Proof.
  assert (Hv : Babyweight.ultrasound_variants [("plurality", @PInt dec 2)] =
    Ok [[("plurality", PStr "Multiple(2+)"); ("is_male", PStr "Unknown")];
        [("plurality", PStr "Twins(2)")]]) by reflexivity.
  split; [exact Hv | exact (ultrasound_variants_keys _ _ _ Hv)].
Defined.

(** For a row that passes the shared filters with plurality above 5 the
    two preprocessings part ways: the Beam [to_csv] raises [IndexError],
    while the UNION ALL query still gives both records, the ultrasound one
    with the string "NULL" as plurality (the CASE's ELSE) and the
    no-ultrasound one with "Multiple(2+)". *)
Theorem bq_beam_diverge_above_five {F : Type} `{PyFloat F}
    (fp : string -> Z) (r : Natality.natality) (rowdict : dict (pyval F)) (p : Z) :
  Natality.beam_query fp r = Some rowdict ->
  Natality.plurality r = Some p ->
  5 < p ->
  Babyweight.to_csv rowdict = Raise IndexError /\
  exists c,
    Natality.bq_union fp r =
      [Natality.ultrasound_branch c; Natality.no_ultrasound_branch c] /\
    lookup "plurality" (Natality.ultrasound_branch c) = Some (PStr "NULL") /\
    lookup "plurality" (Natality.no_ultrasound_branch c) = Some (PStr "Multiple(2+)").
Proof.
  intros Hq Hp Hgt; split.
  - destruct (BabyweightFacts.beam_query_plurality fp r rowdict Hq) as (p' & Hp' & _ & Hl).
    rewrite Hp in Hp'; injection Hp' as <-.
    unfold Babyweight.to_csv.
    rewrite (BabyweightFacts.ultrasound_variants_int rowdict p Hl).
    rewrite (BabyweightFacts.plurality_name_above p Hgt); reflexivity.
  - unfold Natality.beam_query in Hq.
    destruct (Natality.natality_where r) eqn:Hw; [|discriminate].
    unfold Natality.bq_union, Natality.cte_raw_data; rewrite Hw.
    eexists; split; [reflexivity|].
    unfold Natality.ultrasound_branch, Natality.no_ultrasound_branch, Natality.col.
    simpl; rewrite Hp; simpl.
    unfold Natality.ultrasound_case, Natality.no_ultrasound_case,
      Natality.sql_eq_int, Natality.sql_gt_int.
    replace (p =? 1) with false by (symmetry; apply Z.eqb_neq; lia).
    replace (p =? 2) with false by (symmetry; apply Z.eqb_neq; lia).
    replace (p =? 3) with false by (symmetry; apply Z.eqb_neq; lia).
    replace (p =? 4) with false by (symmetry; apply Z.eqb_neq; lia).
    replace (p =? 5) with false by (symmetry; apply Z.eqb_neq; lia).
    replace (1 <? p) with true by (symmetry; apply Z.ltb_lt; lia).
    split; reflexivity.
Qed.

Lemma bq_beam_diverge_above_five_witness :
  Natality.beam_query (fun _ => 42) n_plurality6 = Some r_plurality6 /\
  Natality.plurality n_plurality6 = Some 6 /\ 5 < 6 /\
  Babyweight.to_csv r_plurality6 = Raise IndexError /\
  exists c,
    Natality.bq_union (fun _ => 42) n_plurality6 =
      [Natality.ultrasound_branch c; Natality.no_ultrasound_branch c] /\
    lookup "plurality" (Natality.ultrasound_branch c) = Some (PStr "NULL") /\
    lookup "plurality" (Natality.no_ultrasound_branch c) = Some (PStr "Multiple(2+)").
Proof.
  assert (Hq : Natality.beam_query (fun _ => 42) n_plurality6 = Some r_plurality6)
    by reflexivity.
  split; [exact Hq|]; split; [reflexivity|]; split; [lia|].
  exact (bq_beam_diverge_above_five (fun _ => 42) n_plurality6 r_plurality6 6
           Hq eq_refl ltac:(lia)).
Defined.

(** Every record of the UNION ALL query has a non-NULL string plurality:
    one of the five names or "NULL" in the ultrasound branch, and
    "Single(1)" or "Multiple(2+)" in the no-ultrasound branch (its CASE has
    no ELSE, but the WHERE clause keeps only rows with plurality > 0). *)
Theorem bq_union_plurality_string {F : Type} `{PyFloat F}
    (fp : string -> Z) (r : Natality.natality) (d : dict (pyval F)) :
  In d (Natality.bq_union fp r) ->
  exists s, lookup "plurality" d = Some (PStr s) /\
            In s ("Multiple(2+)" :: "NULL" :: Babyweight.PLURALITY_NAMES).
Proof.
  unfold Natality.bq_union, Natality.cte_raw_data.
  destruct (Natality.natality_where r) eqn:Hw; [|intros []].
  unfold Natality.natality_where in Hw; rewrite !andb_true_iff in Hw.
  destruct Hw as (((((_ & _) & _) & Hpl) & _) & _).
  destruct (Natality.plurality r) as [p|] eqn:Hp; [|discriminate].
  simpl in Hpl; apply Z.ltb_lt in Hpl.
  unfold Natality.ultrasound_branch, Natality.no_ultrasound_branch, Natality.col.
  intros [<-|[<-|[]]]; simpl.
  - unfold Natality.ultrasound_case, Natality.sql_eq_int.
    repeat match goal with |- context [if ?b then _ else _] => destruct b end;
      eexists; (split; [reflexivity | simpl; tauto]).
  - unfold Natality.no_ultrasound_case, Natality.sql_eq_int, Natality.sql_gt_int.
    destruct (p =? 1) eqn:E1; [eexists; split; [reflexivity | simpl; tauto]|].
    destruct (1 <? p) eqn:E2; [eexists; split; [reflexivity | simpl; tauto]|].
    apply Z.eqb_neq in E1; apply Z.ltb_ge in E2; lia.
Qed.

Lemma bq_union_plurality_string_witness :
  In (Natality.no_ultrasound_branch
        (sample_row (mkdec 75 1) true 30 1 38 42))
     (Natality.bq_union (fun _ => 42) n_single_male) /\
  exists s, lookup "plurality"
              (Natality.no_ultrasound_branch (sample_row (mkdec 75 1) true 30 1 38 42))
            = Some (PStr s) /\
          In s ("Multiple(2+)" :: "NULL" :: Babyweight.PLURALITY_NAMES).
Proof.
  assert (Hin : In (Natality.no_ultrasound_branch
                      (sample_row (mkdec 75 1) true 30 1 38 42))
                   (Natality.bq_union (fun _ => 42) n_single_male))
    by (right; left; reflexivity).
  split; [exact Hin | exact (bq_union_plurality_string _ _ _ Hin)].
Defined.

(** Rows of the same year and month get the same hashmonth, a non-negative
    int (the ABS of the fingerprint), so MOD(hashmonth, 100) lies in
    [0, 100) and all births of one month land in the same split. *)
Theorem hashmonth_same_month {F : Type} `{PyFloat F}
    (fp : string -> Z) (r1 r2 : Natality.natality) (d1 d2 : dict (pyval F)) :
  Natality.beam_query fp r1 = Some d1 ->
  Natality.beam_query fp r2 = Some d2 ->
  Natality.year r1 = Natality.year r2 ->
  Natality.month r1 = Natality.month r2 ->
  exists h, lookup "hashmonth" d1 = Some (PInt h) /\
            lookup "hashmonth" d2 = Some (PInt h) /\
            0 <= h /\ 0 <= Preprocess.sql_mod h 100 < 100.
Proof.
  intros H1 H2 Hy Hm; unfold Natality.beam_query in H1, H2.
  destruct (Natality.natality_where r1) eqn:W1; [|discriminate].
  destruct (Natality.natality_where r2) eqn:W2; [|discriminate].
  injection H1 as <-; injection H2 as <-; simpl.
  unfold Natality.natality_where in W1; rewrite !andb_true_iff in W1.
  destruct W1 as (((((Hy1 & _) & _) & _) & _) & Hm1).
  unfold Natality.hashmonth; rewrite <- Hy, <- Hm.
  destruct (Natality.year r1) as [y|]; [|discriminate].
  destruct (Natality.month r1) as [m|]; [|discriminate].
  simpl; eexists; split; [reflexivity|]; split; [reflexivity|].
  split; [apply Z.abs_nonneg|].
  unfold Preprocess.sql_mod; apply Z.rem_bound_pos; [apply Z.abs_nonneg | lia].
Qed.

Lemma hashmonth_same_month_witness :
  Natality.beam_query (fun _ => 42) n_single_male =
    Some (sample_row (mkdec 75 1) true 30 1 38 42) /\
  Natality.beam_query (fun _ => 42) n_plurality6 = Some r_plurality6 /\
  Natality.year n_single_male = Natality.year n_plurality6 /\
  Natality.month n_single_male = Natality.month n_plurality6 /\
  exists h, lookup "hashmonth" (sample_row (mkdec 75 1) true 30 1 38 42) = Some (PInt h) /\
            lookup "hashmonth" r_plurality6 = Some (PInt h) /\
            0 <= h /\ 0 <= Preprocess.sql_mod h 100 < 100.
Proof.
  assert (H1 : Natality.beam_query (fun _ => 42) n_single_male =
                 Some (sample_row (mkdec 75 1) true 30 1 38 42)) by reflexivity.
  assert (H2 : Natality.beam_query (fun _ => 42) n_plurality6 = Some r_plurality6)
    by reflexivity.
  split; [exact H1|]; split; [exact H2|]; split; [reflexivity|]; split; [reflexivity|].
  exact (hashmonth_same_month _ _ _ _ _ H1 H2 eq_refl eq_refl).
Defined.

Module TaxiFacts.

Lemma range_true (lo hi x : Z) :
  (lo <=? x) && (x <? hi) = true <-> lo <= x < hi.
Proof. rewrite andb_true_iff, Z.leb_le, Z.ltb_lt; reflexivity. Qed.

End TaxiFacts.

(** The three phases of [create_query] together keep exactly the rows of
    the base query: for [EVERY_N > 0], each row with MOD(h, EVERY_N) = 1
    falls in TRAIN, VALID or TEST, and no other row in any. *)
Theorem taxi_phases_cover (every_n h : Z) :
  0 < every_n -> 0 <= h ->
  exists a b c,
    TaxiQuery.create_query_where "TRAIN" every_n h = Some a /\
    TaxiQuery.create_query_where "VALID" every_n h = Some b /\
    TaxiQuery.create_query_where "TEST" every_n h = Some c /\
    a || b || c = TaxiQuery.base_where every_n h.
Proof.
  intros Hn Hh; unfold TaxiQuery.create_query_where, TaxiQuery.subsample_where.
  cbn [String.eqb Ascii.eqb Bool.eqb].
  do 3 eexists; split; [reflexivity|]; split; [reflexivity|]; split; [reflexivity|].
  set (m := Preprocess.sql_mod h (every_n * 100)).
  assert (Hm : 0 <= m < every_n * 100)
    by (apply Z.rem_bound_pos; [exact Hh | lia]).
  destruct (TaxiQuery.base_where every_n h); simpl; [|reflexivity].
  destruct (Z.lt_ge_cases m (every_n * 70)) as [L1|L1].
  - rewrite (proj2 (TaxiFacts.range_true (every_n * 0) (every_n * 70) m)) by lia.
    reflexivity.
  - destruct (Z.lt_ge_cases m (every_n * 85)) as [L2|L2].
    + rewrite (proj2 (TaxiFacts.range_true (every_n * 70) (every_n * 85) m)) by lia.
      rewrite orb_true_r; reflexivity.
    + rewrite (proj2 (TaxiFacts.range_true (every_n * 85) (every_n * 100) m)) by lia.
      rewrite !orb_true_r; reflexivity.
Qed.

Lemma taxi_phases_cover_witness :
  0 < 500000 /\ 0 <= 1234567 /\
  exists a b c,
    TaxiQuery.create_query_where "TRAIN" 500000 1234567 = Some a /\
    TaxiQuery.create_query_where "VALID" 500000 1234567 = Some b /\
    TaxiQuery.create_query_where "TEST" 500000 1234567 = Some c /\
    a || b || c = TaxiQuery.base_where 500000 1234567.
Proof.
  split; [lia|]; split; [lia|].
  exact (taxi_phases_cover 500000 1234567 ltac:(lia) ltac:(lia)).
Defined.

(** With a sample size of 1 the base clause MOD(h, 1) = 1 never holds, so
    no phase selects any row. *)
Theorem taxi_every_one_empty (phase : string) (h : Z) :
  TaxiQuery.create_query_where phase 1 h <> Some true.
Proof.
  unfold TaxiQuery.create_query_where, TaxiQuery.base_where, Preprocess.sql_mod.
  rewrite Z.rem_1_r; simpl.
  destruct (TaxiQuery.subsample_where phase 1 h); discriminate.
Qed.

Module PathFacts.

Lemma string_app_inv_l (s a b : string) : s ++ a = s ++ b -> a = b.
Proof.
  induction s as [|c s IH]; simpl; [tauto|].
  intros E; injection E; exact IH.
Qed.

Lemma join_no_slash (a b : string) (c : Ascii.ascii) :
  Preprocess.starts_with_slash b = false ->
  Preprocess.last_char a = Some c -> Ascii.eqb c Preprocess.slash = false ->
  Preprocess.os_path_join a b = a ++ "/" ++ b.
Proof.
  intros Hb Ha Hc; unfold Preprocess.os_path_join; now rewrite Hb, Ha, Hc.
Qed.

End PathFacts.

(** The pipeline graph of the babyweight [preprocess] has six distinct
    labels (Beam refuses a repeated label) and its two writes go to two
    distinct files. *)
Theorem preprocess_pipeline_distinct {F : Type} `{PyFloat F}
    (in_test_mode : bool) (BUCKET : string) :
  NoDup (map Preprocess.app_label
           (Preprocess.preprocess_pipeline (F := F) in_test_mode BUCKET)) /\
  NoDup (flat_map (fun a => match Preprocess.app_transform a with
                            | Preprocess.Write path => [path]
                            | _ => []
                            end)
           (Preprocess.preprocess_pipeline (F := F) in_test_mode BUCKET)).
Proof.
  unfold Preprocess.preprocess_pipeline, Preprocess.build_step,
    Preprocess.apply_transform; simpl.
  rewrite !PipelineFacts.output_dir_join by reflexivity.
  split.
  - repeat (constructor; [simpl; intuition discriminate|]); constructor.
  - constructor; [|constructor; [intros []|constructor]].
    intros [E|[]]; apply PathFacts.string_app_inv_l in E; discriminate.
Qed.

(** The storage locations of the babyweight [preprocess] lie inside its
    OUTPUT_DIR: [temp_location] is its "tmp" subdirectory and
    [staging_location] is "staging" inside that, in test mode too
    ("./preproc/tmp"). *)
Theorem preprocess_option_paths {F : Type} `{PyFloat F}
    (in_test_mode : bool) (BUCKET job_name PROJECT : string) :
  let T := ((if in_test_mode then "./preproc/" else Preprocess.output_dir false BUCKET)
            ++ "tmp") in
  lookup "temp_location"
    (Options.babyweight_options (F := F) in_test_mode BUCKET job_name PROJECT)
    = Some (PStr T) /\
  lookup "staging_location"
    (Options.babyweight_options (F := F) in_test_mode BUCKET job_name PROJECT)
    = Some (PStr (T ++ "/staging")).
Proof.
  intros T.
  assert (Hj : forall X, Preprocess.os_path_join (X ++ "tmp") "staging" =
                          (X ++ "tmp") ++ "/staging").
  { intros X; eapply PathFacts.join_no_slash;
      [reflexivity | apply PipelineFacts.last_char_app; reflexivity | reflexivity]. }
  unfold Options.babyweight_options, Options.os_path_join_all; simpl.
  rewrite !PipelineFacts.output_dir_join by reflexivity.
  rewrite !Hj; subst T; split; reflexivity.
Qed.


(** What the babyweight [preprocess] prints: in test mode the launch line,
    then "Done!" exactly when every unguarded call succeeded; on the cloud
    only the launch line with the job name, whatever happens after. *)
Theorem preprocess_messages (outcome : Cells.ext_call -> option Cells.ext_error)
    (BUCKET job_name : string) (log : list string) :
  fst (Cells.preprocess outcome true BUCKET job_name log) =
    (log ++ ["Launching local job ... hang on"] ++
     match Cells.first_failure outcome
             [Cells.Makedirs "./preproc"; Cells.PipelineOptions;
              Cells.PipelineCreate "DirectRunner"; Cells.ApplyTransforms "train";
              Cells.ApplyTransforms "eval"; Cells.PipelineRun; Cells.WaitUntilFinish]
     with
     | Cells.COk _ => ["Done!"]
     | Cells.CErr _ => []
     end)%list /\
  fst (Cells.preprocess outcome false BUCKET job_name log) =
    (log ++ [("Launching Dataflow job " ++ job_name ++ " ... hang on")%string])%list.
Proof.
  unfold Cells.preprocess, Cells.rmtree_ignore_errors, Cells.try_except,
    Cells.cbind, Cells.call, Cells.print, Cells.cret, Preprocess.output_dir.
  cbn [Cells.first_failure].
  split; repeat match goal with
                | |- context [outcome ?c] => destruct (outcome c)
                end; simpl; rewrite <- ?app_assoc; reflexivity.
Qed.

(** A successful babyweight [to_csv] on the row object at [l] leaves the
    heap as it was plus exactly two new objects, the no-ultrasound and the
    with-ultrasound records, and yields the CSV lines of these two. *)
Theorem babyweight_heap_copies {F : Type} `{PyFloat F}
    (h : Heap.heap) (l : Heap.loc) (d : dict (pyval F))
    (results : list (dict (pyval F))) :
  nth_error h l = Some d ->
  Babyweight.ultrasound_variants d = Ok results ->
  Heap.babyweight_to_csv l h =
    ((h ++ results)%list, Ok (map Babyweight.csv_line results)).
Proof.
  intros Hl Hv.
  unfold Babyweight.ultrasound_variants, Babyweight.deepcopy in Hv.
  destruct (getitem d "plurality") as [p|e] eqn:Hg; cbn [bind] in Hv; [|discriminate].
  destruct (py_gt_int p 1) as [gt|e] eqn:Hgt; cbn [bind] in Hv; [|discriminate].
  destruct (py_sub_int p 1) as [i|e] eqn:Hi; cbn [bind] in Hv; [|discriminate].
  destruct (py_index Babyweight.PLURALITY_NAMES i) as [name|e] eqn:Hn; cbn [bind] in Hv;
    [|discriminate].
  injection Hv as <-.
  replace (Heap.babyweight_to_csv l h) with (Heap.babyweight_to_csv l (h ++ [])%list)
    by now rewrite app_nil_r.
  unfold Heap.babyweight_to_csv, Heap.deepcopy, Heap.setitem_h, Heap.getitem_h,
    Heap.bindM, Heap.retM, Heap.lift.
  repeat first [HeapFacts.heap_step Hl | HeapFacts.split_outcome].
  all: reflexivity.
Qed.

Lemma babyweight_heap_copies_witness :
  nth_error [taxi_row; sample_row (mkdec 75 1) true 32 2 39 42] 1%nat =
    Some (sample_row (mkdec 75 1) true 32 2 39 42) /\
  exists results,
    Babyweight.ultrasound_variants (sample_row (mkdec 75 1) true 32 2 39 42) =
      Ok results /\
    Heap.babyweight_to_csv 1%nat [taxi_row; sample_row (mkdec 75 1) true 32 2 39 42] =
      (([taxi_row; sample_row (mkdec 75 1) true 32 2 39 42] ++ results)%list,
       Ok (map Babyweight.csv_line results)).
Proof.
  assert (Hl : nth_error [taxi_row; sample_row (mkdec 75 1) true 32 2 39 42] 1%nat =
                 Some (sample_row (mkdec 75 1) true 32 2 39 42)) by reflexivity.
  split; [exact Hl|].
  eexists; split; [reflexivity|].
  apply (babyweight_heap_copies _ _ (sample_row (mkdec 75 1) true 32 2 39 42));
    [exact Hl | reflexivity].
Defined.

Module PrintFacts.

Lemma no_char_app (c : Ascii.ascii) (s1 s2 : string) :
  PyStr.no_char c (s1 ++ s2) = PyStr.no_char c s1 && PyStr.no_char c s2.
Proof.
  induction s1 as [|a s1 IH]; simpl; [reflexivity|].
  now rewrite IH, andb_assoc.
Qed.

Lemma no_char_list (c : Ascii.ascii) (l : list Ascii.ascii) :
  PyStr.no_char c (string_of_list_ascii l) = forallb (fun a => negb (Ascii.eqb a c)) l.
Proof.
  induction l as [|a l IH]; simpl; [reflexivity|]; now rewrite IH.
Qed.

Lemma digit_not_comma (d : N) :
  (d < 10)%N -> negb (Ascii.eqb (Ascii.ascii_of_N (48 + d)) PyStr.comma) = true.
Proof.
  intros Hd.
  assert (Hc : (d = 0 \/ d = 1 \/ d = 2 \/ d = 3 \/ d = 4 \/ d = 5 \/ d = 6 \/
                d = 7 \/ d = 8 \/ d = 9)%N) by lia.
  repeat destruct Hc as [->|Hc]; [..|subst d]; reflexivity.
Qed.

Lemma digits_no_comma (fuel : nat) (n : N) :
  forallb (fun a => negb (Ascii.eqb a PyStr.comma)) (digits_rev fuel n) = true.
Proof.
  revert n; induction fuel as [|fuel IH]; intros n; [reflexivity|].
  assert (Hd : (n mod 10 < 10)%N) by (apply N.mod_lt; discriminate).
  cbn [digits_rev]; cbv zeta.
  destruct (n <? 10)%N; cbn [forallb]; rewrite (digit_not_comma _ Hd);
    [reflexivity | apply IH].
Qed.

Lemma forallb_rev {A} (f : A -> bool) (l : list A) :
  forallb f (rev l) = forallb f l.
Proof.
  induction l as [|a l IH]; simpl; [reflexivity|].
  rewrite forallb_app, IH; simpl; now rewrite andb_true_r, andb_comm.
Qed.

Lemma Z_to_string_no_comma (z : Z) : PyStr.no_char PyStr.comma (Z_to_string z) = true.
Proof.
  assert (Hn : forall n, PyStr.no_char PyStr.comma (N_to_string n) = true)
    by (intros n; unfold N_to_string; rewrite no_char_list, forallb_rev;
        apply digits_no_comma).
  unfold Z_to_string; destruct z; [apply Hn | apply Hn | rewrite no_char_app, Hn; reflexivity].
Qed.

Lemma dec_str_no_comma (d : dec) : PyStr.no_char PyStr.comma (dec_str d) = true.
Proof.
  unfold dec_str; rewrite !no_char_app, !Z_to_string_no_comma.
  destruct (mant d <? 0); simpl;
    (destruct (scale d =? 0)%nat; [reflexivity|]);
    unfold pad_left; rewrite no_char_app, no_char_list, Z_to_string_no_comma;
    (induction (scale d - String.length _)%nat; simpl; [reflexivity | exact IHn]).
Qed.

End PrintFacts.

(** Every row the Beam reader hands to the babyweight [to_csv] holds
    numbers, bools and NULLs only, so as long as floats print without a
    comma, each line written to train.csv / eval.csv splits back into its
    five fields. *)
Theorem beam_lines_split {F : Type} `{PyFloat F}
    (fp : string -> Z) (r : Natality.natality) (rowdict : dict (pyval F))
    (lines : list string) :
  (forall f : F, PyStr.no_char PyStr.comma (float_str f) = true) ->
  Natality.beam_query fp r = Some rowdict ->
  Babyweight.to_csv rowdict = Ok lines ->
  Forall (fun l => exists fs, length fs = 5%nat /\ l = join "," fs /\
                              PyStr.split PyStr.comma l = fs) lines.
Proof.
  intros Hf Hq Hl; apply (SplitLines.babyweight_lines_split rowdict lines); [|exact Hl].
  unfold Natality.beam_query in Hq; destruct (Natality.natality_where r); [|discriminate].
  injection Hq as <-; unfold SplitFacts.clean; simpl.
  unfold Natality.float_col, Natality.bool_col, Natality.int_col, Natality.hashmonth.
  repeat match goal with
         | |- context [match ?c with Some _ => _ | None => _ end] => destruct c
         end; simpl; rewrite ?Hf, ?PrintFacts.Z_to_string_no_comma;
  repeat match goal with
         | |- context [if ?b then _ else _] => destruct b
         end; reflexivity.
Qed.

Lemma beam_lines_split_witness :
  Natality.beam_query (fun _ => 42) n_single_male =
    Some (sample_row (mkdec 75 1) true 30 1 38 42) /\
  Babyweight.to_csv (sample_row (mkdec 75 1) true 30 1 38 42) =
    Ok ["7.5,Unknown,30,Single(1),38"; "7.5,True,30,Single(1),38"] /\
  Forall (fun l => exists fs, length fs = 5%nat /\ l = join "," fs /\
                              PyStr.split PyStr.comma l = fs)
    ["7.5,Unknown,30,Single(1),38"; "7.5,True,30,Single(1),38"].
Proof.
  assert (Hq : Natality.beam_query (fun _ => 42) n_single_male =
                 Some (sample_row (mkdec 75 1) true 30 1 38 42)) by reflexivity.
  assert (Hl : Babyweight.to_csv (sample_row (mkdec 75 1) true 30 1 38 42) =
                 Ok ["7.5,Unknown,30,Single(1),38"; "7.5,True,30,Single(1),38"])
    by reflexivity.
  split; [exact Hq|]; split; [exact Hl|].
  exact (beam_lines_split (fun _ => 42) n_single_male _ _
           PrintFacts.dec_str_no_comma Hq Hl).
Defined.
